(** * aqmsp_models: the DeepTime closed-form regressor, its training glue
      and the random-forest baseline

    Shallow embedding of [src/aqmsp_models/models/deeptime/model.py] and
    [src/aqmsp_models/models/rf/model.py].

    - Python floats and dataframe cells are IEEE binary64 values
      ([spec_float] with precision 53, [emax] 1024), so [nan], [inf] and
      rounding behave as in the interpreter.
    - Exceptions are values of [exn]; a computation that may raise returns
      a [result]; code that also touches the working directory or a random
      generator runs in the monad [M], whose state survives a raise.
    - torch, numpy's generator, xarray and scikit-learn are collaborators
      behind the interfaces [Backend] and [Sklearn].
    - The tensor algebra of [DeepTime.forward] is developed over the reals:
      it is the exact-arithmetic reading of the float32 kernels (rounding is
      not modelled there). *)

From Stdlib Require Import Reals Lra Lia ZArith List String Ascii SpecFloat Psatz Permutation
  FunctionalExtensionality.
From stdpp Require Import gmap strings.
Import ListNotations.

(* ================================================================== *)
(** * Part I: definitions                                              *)
(* ================================================================== *)

(** ** Exceptions and results *)

Inductive exn : Set :=
| ValueError | KeyError | IndexError | TypeError | RuntimeError | LinAlgError
| FileNotFoundError | OverflowError | ZeroDivisionError | MemoryError
| NotImplementedError.

(** [except ValueError] matches this class only: none of the other classes
    listed derives from it. *)
Definition is_ValueError (e : exn) : bool :=
  match e with ValueError => true | _ => false end.

Inductive result (A : Type) : Type :=
| Ok (a : A)
| Raise (e : exn).
Arguments Ok {A} a.
Arguments Raise {A} e.

#[global] Instance result_ret : MRet result := fun A a => Ok a.
#[global] Instance result_bind : MBind result := fun A B k r =>
  match r with
  | Ok a => k a
  | Raise e => Raise e
  end.

Fixpoint rmapM {A B : Type} (f : A -> result B) (l : list A) : result (list B) :=
  match l with
  | [] => Ok []
  | a :: l' =>
      match f a with
      | Ok b =>
          match rmapM f l' with
          | Ok bs => Ok (b :: bs)
          | Raise e => Raise e
          end
      | Raise e => Raise e
      end
  end.

(** ** Python floats (binary64) *)

Module F64.
Definition prec : Z := 53.
Definition emax : Z := 1024.

Definition is_nan (f : spec_float) : bool :=
  match f with S754_nan => true | _ => false end.

Definition zero : spec_float := S754_zero false.
Definition nan : spec_float := S754_nan.
Definition inf : spec_float := S754_infinity false.

Definition add : spec_float -> spec_float -> spec_float := SFadd prec emax.
Definition sub : spec_float -> spec_float -> spec_float := SFsub prec emax.
Definition mul : spec_float -> spec_float -> spec_float := SFmul prec emax.
Definition div : spec_float -> spec_float -> spec_float := SFdiv prec emax.
Definition ltb : spec_float -> spec_float -> bool := SFltb.

Definition of_Z (z : Z) : spec_float := binary_normalize prec emax z 0 false.

(** A float that is a number: not [nan], not an infinity. *)
Definition is_number (f : spec_float) : bool :=
  match f with
  | S754_zero _ | S754_finite _ _ _ => true
  | _ => false
  end.

(** [float(n)] for a Python [int]: correctly rounded, [OverflowError]
    when the integer is too large for a double. *)
Definition float_of_int (n : Z) : result spec_float :=
  let f := of_Z n in
  if is_number f then Ok f else Raise OverflowError.

(** [int(x)]: truncation toward zero; [ValueError] on nan,
    [OverflowError] on an infinity. *)
Definition int_of_float (f : spec_float) : result Z :=
  match f with
  | S754_nan => Raise ValueError
  | S754_infinity _ => Raise OverflowError
  | S754_zero _ => Ok 0%Z
  | S754_finite s m e => Ok (cond_Zopp s (Z.shiftl (Zpos m) e))
  end.

(** Python's [x / n] for a float [x] and an [int] [n]. *)
Definition div_int (x : spec_float) (n : Z) : result spec_float :=
  if (n =? 0)%Z then Raise ZeroDivisionError
  else d ← float_of_int n; Ok (div x d).

(** The cast done by [torch.tensor(..., dtype=torch.float32)]. *)
Definition to_f32 (x : spec_float) : spec_float :=
  match x with
  | S754_finite s m e => binary_normalize 24 128 (cond_Zopp s (Zpos m)) e s
  | _ => x
  end.

(** The reductions [.min()] and [.max()] of a float array skip nan and
    give nan when nothing else is there. *)
Definition min2 (a b : spec_float) : spec_float :=
  if is_nan a then b else if is_nan b then a else if ltb b a then b else a.
Definition max2 (a b : spec_float) : spec_float :=
  if is_nan a then b else if is_nan b then a else if ltb a b then b else a.
Definition nanmin (l : list spec_float) : spec_float := fold_left min2 l nan.
Definition nanmax (l : list spec_float) : spec_float := fold_left max2 l nan.
End F64.

(** ** Python slices and index arrays *)

(** The bound [k] of [l[:k]] or [l[k:]], clipped as Python does. *)
Definition slice_bound (k : Z) (n : nat) : nat :=
  if (k <? 0)%Z then Z.to_nat (Z.max 0 (k + Z.of_nat n))
  else Nat.min (Z.to_nat k) n.

Definition slice_to {A : Type} (k : Z) (l : list A) : list A :=
  firstn (slice_bound k (length l)) l.
Definition slice_from {A : Type} (k : Z) (l : list A) : list A :=
  skipn (slice_bound k (length l)) l.

(** [X[idx]] for an array of row indices. *)
Definition take_rows {A : Type} (X : list A) (idx : list nat) : result (list A) :=
  rmapM (fun i => match nth_error X i with
                  | Some r => Ok r
                  | None => Raise IndexError
                  end) idx.

(** Batches of a [DataLoader]: consecutive groups of [b] indices, the last
    one possibly shorter. *)
Fixpoint chunks_aux {A : Type} (fuel b : nat) (l : list A) : list (list A) :=
  match fuel with
  | O => []
  | S fuel' =>
      match l with
      | [] => []
      | _ :: _ => firstn b l :: chunks_aux fuel' b (skipn b l)
      end
  end.
Definition chunks {A : Type} (b : nat) (l : list A) : list (list A) :=
  chunks_aux (length l) b l.

(** ** Gridded data and data frames *)

(** An xarray dataset over the dimensions (time, station). *)
Record Dataset : Type := {
  times : list Z;
  stations : list Z;
  var : string -> Z -> Z -> spec_float
}.

(** A row of [to_dataframe().reset_index()]: the two index columns and the
    data columns.  Every configured column is taken to exist, and the index
    columns are not among the configured features. *)
Record Row : Type := {
  r_time : Z;
  r_station : Z;
  r_col : string -> spec_float
}.

Definition DataFrame : Type := list Row.

Definition to_dataframe (d : Dataset) : DataFrame :=
  flat_map (fun t =>
              map (fun s => {| r_time := t; r_station := s;
                               r_col := fun c => var d c t s |}) (stations d))
           (times d).

(** [df[c] = g(df[c])] *)
Definition set_col (c : string) (g : spec_float -> spec_float) (df : DataFrame) : DataFrame :=
  map (fun r => {| r_time := r_time r; r_station := r_station r;
                   r_col := fun c' => if String.eqb c' c then g (r_col r c) else r_col r c' |}) df.

(** [df.dropna(subset=[c])] *)
Definition dropna (c : string) (df : DataFrame) : DataFrame :=
  List.filter (fun r => negb (F64.is_nan (r_col r c))) df.

(** [df[df.time == t]] *)
Definition at_time (t : Z) (df : DataFrame) : DataFrame :=
  List.filter (fun r => (r_time r =? t)%Z) df.

(** [Series.unique()]: first occurrences, in order. *)
Fixpoint unique (l : list Z) : list Z :=
  match l with
  | [] => []
  | x :: l' => x :: List.filter (fun y => negb (y =? x)%Z) (unique l')
  end.

(** All values of one variable of a dataset. *)
Definition values (d : Dataset) (c : string) : list spec_float :=
  flat_map (fun t => map (fun s => var d c t s) (stations d)) (times d).

(** [d[c].min().item()], [d[c].max().item()]: a reduction over an empty
    array raises. *)
Definition data_min (d : Dataset) (c : string) : result spec_float :=
  match values d c with
  | [] => Raise ValueError
  | vs => Ok (F64.nanmin vs)
  end.
Definition data_max (d : Dataset) (c : string) : result spec_float :=
  match values d c with
  | [] => Raise ValueError
  | vs => Ok (F64.nanmax vs)
  end.

(** The min-max scaling [(v - fet_min) / (fet_max - fet_min)]. *)
Definition scale (fet_min fet_max v : spec_float) : spec_float :=
  F64.div (F64.sub v fet_min) (F64.sub fet_max fet_min).

(** Float32 tensors built from a frame. *)
Definition tensor : Type := list (list spec_float).

Definition features_tensor (fs : list string) (df : DataFrame) : tensor :=
  map (fun r => map (fun f => F64.to_f32 (r_col r f)) fs) df.
Definition target_tensor (tg : string) (df : DataFrame) : tensor :=
  map (fun r => [F64.to_f32 (r_col r tg)]) df.

(** ** Configuration *)

Record Config : Type := {
  features : list string;
  target : string;
  context_fraction : spec_float;
  batch_size : nat;
  epochs : nat;
  random_state : Z;
  n_estimators : nat;
  max_depth : option nat
}.

(** ** Artifacts of the working directory *)

Inductive artifact : Set := ModelPt | MetadataPt | PredictionsNc.

(** Values of the dictionary saved as [metadata.pt]. *)
Inductive meta_value : Type :=
| MFloat (f : spec_float)
| MLosses (l : list spec_float).

(** What the process prints or writes, in order. *)
Inductive event : Type :=
| Saved (a : artifact)
| EpochDone (epoch : nat) (loss : spec_float).

(** A dataset item of [fit]: X_context, y_context, X_target, y_target;
    of [predict]: train_X, train_y, test_X, test_y. *)
Definition item : Type := (tensor * tensor * tensor * tensor)%type.

(** ** The collaborators of the DeepTime training glue *)

(** torch (generator, model construction, one optimisation step, inference,
    checkpoints), numpy's global generator and xarray's assignment.  None of
    them sees the working directory. *)
Class Backend : Type := {
  torch_state : Type;
  np_state : Type;
  params : Type;
  checkpoint : Type;
  netcdf : Type;
  (** [torch.manual_seed] *)
  torch_manual_seed : Z -> torch_state;
  (** the sampler of [DataLoader(..., shuffle=True)] *)
  torch_randperm : torch_state -> nat -> list nat * torch_state;
  (** [np.random.permutation(n)] on numpy's global generator *)
  np_permutation : np_state -> nat -> list nat * np_state;
  np_permutation_perm : forall s n, Permutation (fst (np_permutation s n)) (seq 0 n);
  (** [DeepTime(...).to(device)] together with its Adam optimiser *)
  new_model : Config -> torch_state -> params * torch_state;
  (** collation, forward pass, mse loss, backward pass, optimiser step;
      gives the updated model and [loss.item()] *)
  train_step : Config -> params -> list item -> torch_state ->
               torch_state * result (params * spec_float);
  state_dict : params -> checkpoint;
  load_state_dict : params -> checkpoint -> result params;
  (** [cnp(train_X, train_y, test_X).cpu().numpy()] in eval mode under
      [no_grad], on a collated batch *)
  predict_step : params -> list item -> result (list tensor);
  (** [test_data[name] = (("time", "station"), y_pred.squeeze())] after
      [np.concatenate] *)
  xr_assign : Dataset -> string -> list (list tensor) -> result netcdf
}.

Section Glue.
Context {B : Backend}.

(** The state of the process and of the working directory. *)
Record world : Type := {
  w_torch : torch_state;
  w_numpy : np_state;
  w_model_pt : option checkpoint;
  w_metadata_pt : option (gmap string meta_value);
  w_predictions_nc : option netcdf;
  w_log : list event
}.

Definition M (A : Type) : Type := world -> world * result A.

Definition ret {A : Type} (a : A) : M A := fun w => (w, Ok a).
Definition raise {A : Type} (e : exn) : M A := fun w => (w, Raise e).
Definition bind {A C : Type} (m : M A) (k : A -> M C) : M C :=
  fun w => match m w with
           | (w', Ok a) => k a w'
           | (w', Raise e) => (w', Raise e)
           end.
Definition lift {A : Type} (r : result A) : M A := fun w => (w, r).

(** Primitive actions. *)
Definition log_event (ev : event) : M unit := fun w =>
  ({| w_torch := w_torch w; w_numpy := w_numpy w; w_model_pt := w_model_pt w;
      w_metadata_pt := w_metadata_pt w; w_predictions_nc := w_predictions_nc w;
      w_log := w_log w ++ [ev] |}, Ok tt).

Definition manual_seed (seed : Z) : M unit := fun w =>
  ({| w_torch := torch_manual_seed seed; w_numpy := w_numpy w;
      w_model_pt := w_model_pt w; w_metadata_pt := w_metadata_pt w;
      w_predictions_nc := w_predictions_nc w; w_log := w_log w |}, Ok tt).

(** Run a function that consumes torch's generator. *)
Definition with_torch {A : Type} (f : torch_state -> torch_state * result A) : M A := fun w =>
  let '(g, r) := f (w_torch w) in
  ({| w_torch := g; w_numpy := w_numpy w; w_model_pt := w_model_pt w;
      w_metadata_pt := w_metadata_pt w; w_predictions_nc := w_predictions_nc w;
      w_log := w_log w |}, r).

Definition permutation (n : nat) : M (list nat) := fun w =>
  let '(idx, s) := np_permutation (w_numpy w) n in
  ({| w_torch := w_torch w; w_numpy := s; w_model_pt := w_model_pt w;
      w_metadata_pt := w_metadata_pt w; w_predictions_nc := w_predictions_nc w;
      w_log := w_log w |}, Ok idx).

(** [torch.save(obj, join(working_dir, name))] and [to_netcdf]. *)
Definition save_model (c : checkpoint) : M unit := fun w =>
  ({| w_torch := w_torch w; w_numpy := w_numpy w; w_model_pt := Some c;
      w_metadata_pt := w_metadata_pt w; w_predictions_nc := w_predictions_nc w;
      w_log := w_log w ++ [Saved ModelPt] |}, Ok tt).
Definition save_metadata (m : gmap string meta_value) : M unit := fun w =>
  ({| w_torch := w_torch w; w_numpy := w_numpy w; w_model_pt := w_model_pt w;
      w_metadata_pt := Some m; w_predictions_nc := w_predictions_nc w;
      w_log := w_log w ++ [Saved MetadataPt] |}, Ok tt).
Definition save_predictions (n : netcdf) : M unit := fun w =>
  ({| w_torch := w_torch w; w_numpy := w_numpy w; w_model_pt := w_model_pt w;
      w_metadata_pt := w_metadata_pt w; w_predictions_nc := Some n;
      w_log := w_log w ++ [Saved PredictionsNc] |}, Ok tt).

(** [torch.load(join(working_dir, name))] *)
Definition load_model : M checkpoint := fun w =>
  (w, match w_model_pt w with Some c => Ok c | None => Raise FileNotFoundError end).
Definition load_metadata : M (gmap string meta_value) := fun w =>
  (w, match w_metadata_pt w with Some m => Ok m | None => Raise FileNotFoundError end).

Fixpoint mapM {A C : Type} (f : A -> M C) (l : list A) : M (list C) :=
  match l with
  | [] => ret []
  | a :: l' => bind (f a) (fun c => bind (mapM f l') (fun cs => ret (c :: cs)))
  end.

Fixpoint foldM {A S : Type} (f : S -> A -> M S) (l : list A) (s : S) : M S :=
  match l with
  | [] => ret s
  | a :: l' => bind (f s a) (fun s' => foldM f l' s')
  end.

(** The working directory and the log are the same in both worlds. *)
Definition same_disk (w w' : world) : Prop :=
  w_model_pt w' = w_model_pt w /\ w_metadata_pt w' = w_metadata_pt w /\
  w_predictions_nc w' = w_predictions_nc w /\ w_log w' = w_log w.

(** An action that neither writes nor logs. *)
Definition silent {A : Type} (m : M A) : Prop :=
  forall w w' r, m w = (w', r) -> same_disk w w'.

(** An action that does not draw from numpy's generator. *)
Definition keeps_numpy {A : Type} (m : M A) : Prop :=
  forall w w' r, m w = (w', r) -> w_numpy w' = w_numpy w.
End Glue.

Declare Scope glue_scope.
Delimit Scope glue_scope with glue.
Notation "'let!' x ':=' m 'in' k" := (bind m (fun x => k))
  (at level 10, x pattern, m at level 100, k at level 200) : glue_scope.
Notation "m1 ';;;' m2" := (bind m1 (fun _ => m2))
  (at level 100, m2 at level 200, right associativity) : glue_scope.

(** ** DeepTime: [fit] *)

Section Fit.
Context {B : Backend}.
Local Open Scope glue_scope.

(** The loop over [config.features] of [fit]: the statistics come from
    the gridded training data, the frame is scaled column by column. *)
Fixpoint fit_features (train_data : Dataset) (fs : list string)
         (meta_dict : gmap string meta_value) (train_df : DataFrame)
  : result (gmap string meta_value * DataFrame) :=
  match fs with
  | [] => Ok (meta_dict, train_df)
  | feature :: fs' =>
      fet_min ← data_min train_data feature;
      fet_max ← data_max train_data feature;
      let meta_dict := <[feature +:+ "_max" := MFloat fet_max]>
                         (<[feature +:+ "_min" := MFloat fet_min]> meta_dict) in
      let train_df := set_col feature (scale fet_min fet_max) train_df in
      fit_features train_data fs' meta_dict train_df
  end.

(** [int(config.context_fraction * len(X))] *)
Definition num_context (config : Config) (n : nat) : result Z :=
  f ← F64.float_of_int (Z.of_nat n);
  F64.int_of_float (F64.mul (context_fraction config) f).

(** Lines 92-95 of [CustomDataset.__getitem__]: the split by the index
    array [idx]. *)
Definition split (num_context : Z) (X y : tensor) (idx : list nat) : result item :=
  X_context ← take_rows X (slice_to num_context idx);
  y_context ← take_rows y (slice_to num_context idx);
  X_target ← take_rows X (slice_from num_context idx);
  y_target ← take_rows y (slice_from num_context idx);
  Ok (X_context, y_context, X_target, y_target).

(** [CustomDataset] of [fit]. *)
Definition fit_ts (df : DataFrame) : list Z := unique (map r_time df).

Definition fit_getitem (config : Config) (df : DataFrame) (idx : nat) : M item :=
  match nth_error (fit_ts df) idx with
  | None => raise IndexError
  | Some t =>
      let ts_df := at_time t df in
      let ts_df := dropna (target config) ts_df in
      let X := features_tensor (features config) ts_df in
      let y := target_tensor (target config) ts_df in
      let! idx := permutation (length X) in
      let! num_context := lift (num_context config (length X)) in
      lift (split num_context X y idx)
  end.

(** One pass over the [DataLoader(dataset, batch_size, shuffle=True)]:
    the inner loop of [fit] and the epoch's average loss. *)
Definition train_batch (config : Config) (df : DataFrame)
           (st : params * spec_float) (batch : list nat) : M (params * spec_float) :=
  let '(cnp, epoch_loss) := st in
  let! items := mapM (fit_getitem config df) batch in
  let! (cnp, loss) := with_torch (train_step config cnp items) in
  ret (cnp, F64.add epoch_loss loss).

Definition train_epoch (config : Config) (df : DataFrame) (cnp : params)
  : M (params * spec_float) :=
  let! order := with_torch (fun g => let '(o, g') := torch_randperm g (length (fit_ts df)) in
                                     (g', Ok o)) in
  let batches := chunks (batch_size config) order in
  let! (cnp, epoch_loss) := foldM (train_batch config df) batches (cnp, F64.zero) in
  let! avg := lift (F64.div_int epoch_loss (Z.of_nat (length batches))) in
  ret (cnp, avg).

(** The body of [for epoch in range(config.epochs)]. *)
Definition epoch_body (config : Config) (df : DataFrame)
           (st : params * list spec_float * spec_float) (epoch : nat)
  : M (params * list spec_float * spec_float) :=
  let '(cnp, losses, best_loss) := st in
  let! (cnp, avg) := train_epoch config df cnp in
  let losses := losses ++ [avg] in
  let! best_loss :=
    (if F64.ltb avg best_loss
     then save_model (state_dict cnp) ;;; ret avg
     else ret best_loss) in
  log_event (EpochDone (epoch + 1) avg) ;;;
  ret (cnp, losses, best_loss).

Definition fit (train_data : Dataset) (config : Config) : M unit :=
  manual_seed (random_state config) ;;;
  let train_df := to_dataframe train_data in
  let! (meta_dict, train_df) :=
    lift (fit_features train_data (features config) ∅ train_df) in
  (if (batch_size config =? 0)%nat then raise ValueError else ret tt) ;;;
  let! cnp := with_torch (fun g => let '(m, g') := new_model config g in (g', Ok m)) in
  let! (cnp, losses, best_loss) :=
    foldM (epoch_body config train_df) (seq 0 (epochs config)) (cnp, [], F64.inf) in
  let meta_dict := <["losses" := MLosses losses]> meta_dict in
  save_metadata meta_dict.
End Fit.

(** ** DeepTime: [predict] and [fit_predict] *)

Section Predict.
Context {B : Backend}.
Local Open Scope glue_scope.

(** [meta[key]] used as a number. *)
Definition meta_float (meta : gmap string meta_value) (key : string) : result spec_float :=
  match meta !! key with
  | Some (MFloat f) => Ok f
  | Some (MLosses _) => Raise TypeError
  | None => Raise KeyError
  end.

(** The loop over [config.features] of [predict]: both frames are scaled
    with the statistics read from the metadata. *)
Fixpoint predict_features (meta : gmap string meta_value) (fs : list string)
         (train_df test_df : DataFrame) : result (DataFrame * DataFrame) :=
  match fs with
  | [] => Ok (train_df, test_df)
  | feature :: fs' =>
      fet_min ← meta_float meta (feature +:+ "_min");
      fet_max ← meta_float meta (feature +:+ "_max");
      let train_df := set_col feature (scale fet_min fet_max) train_df in
      let test_df := set_col feature (scale fet_min fet_max) test_df in
      predict_features meta fs' train_df test_df
  end.

(** [CustomDataset] of [predict]. *)
Definition predict_ts (train_df : DataFrame) : list Z := unique (map r_time train_df).

Definition predict_getitem (config : Config) (train_df test_df : DataFrame) (idx : nat)
  : result item :=
  match nth_error (predict_ts train_df) idx with
  | None => Raise IndexError
  | Some t =>
      let train_df := at_time t train_df in
      let test_df := at_time t test_df in
      let train_X := features_tensor (features config) train_df in
      let test_X := features_tensor (features config) test_df in
      let train_y := target_tensor (target config) train_df in
      let test_y := target_tensor (target config) test_df in
      Ok (train_X, train_y, test_X, test_y)
  end.

(** The body of the loop over the [DataLoader(..., shuffle=False)]. *)
Definition predict_batch (config : Config) (train_df test_df : DataFrame) (cnp : params)
           (batch : list nat) : result (list tensor) :=
  items ← rmapM (predict_getitem config train_df test_df) batch;
  predict_step cnp items.

(** Lines 150-193 of [predict]: what it does with the two scaled frames. *)
Definition predict_with_frames (test_data : Dataset) (config : Config)
           (train_df test_df : DataFrame) : M unit :=
  (if (batch_size config =? 0)%nat then raise ValueError else ret tt) ;;;
  let batches := chunks (batch_size config) (seq 0 (length (predict_ts train_df))) in
  let! cnp := with_torch (fun g => let '(m, g') := new_model config g in (g', Ok m)) in
  let! ckpt := load_model in
  let! cnp := lift (load_state_dict cnp ckpt) in
  let! y_pred := lift (rmapM (predict_batch config train_df test_df cnp) batches) in
  let! nc := lift (xr_assign test_data (target config +:+ "_pred") y_pred) in
  save_predictions nc.

Definition predict (test_data train_data : Dataset) (config : Config) : M unit :=
  let! meta := load_metadata in
  let train_df := to_dataframe train_data in
  let test_df := to_dataframe test_data in
  let! (train_df, test_df) :=
    lift (predict_features meta (features config) train_df test_df) in
  predict_with_frames test_data config train_df test_df.

Definition fit_predict (train_data test_data : Dataset) (config : Config) : M unit :=
  fit train_data config ;;;
  predict test_data train_data config.
End Predict.

(** ** The random-forest baseline *)

(** scikit-learn's regressor and xarray's assignment. *)
Class Sklearn : Type := {
  forest : Type;
  rf_netcdf : Type;
  (** [RandomForestRegressor(n_estimators, n_jobs=1, random_state, max_depth).fit(X, y)] *)
  rf_fit : Config -> list (list spec_float) -> list spec_float -> result forest;
  rf_predict : forest -> list (list spec_float) -> result (list spec_float);
  (** [test_data[name] = (("time", "station"), pred_y)] *)
  rf_assign : Dataset -> string -> list (list spec_float) -> result rf_netcdf
}.

Module RF.
Section RF.
Context {K : Sklearn}.

Definition fit (train_data : Dataset) (config : Config) : result unit :=
  Raise NotImplementedError.

Definition predict (test_data train_data : Dataset) (config : Config) : result unit :=
  Raise NotImplementedError.

(** [d.sel(time=ts).to_dataframe()]: one row per station. *)
Definition sel (d : Dataset) (ts : Z) : result DataFrame :=
  if existsb (Z.eqb ts) (times d)
  then Ok (map (fun s => {| r_time := ts; r_station := s;
                            r_col := fun c => var d c ts s |}) (stations d))
  else Raise KeyError.

Definition train_fn (train_data test_data : Dataset) (config : Config) (ts : Z)
  : result (list spec_float) :=
  train_df ← sel train_data ts;
  let train_df := dropna (target config) train_df in
  test_df ← sel test_data ts;
  let test_X := map (fun r => map (r_col r) (features config)) test_df in
  match rf_fit config (map (fun r => map (r_col r) (features config)) train_df)
                      (map (fun r => r_col r (target config)) train_df) with
  | Raise e =>
      if is_ValueError e
      then Ok (map (fun z => F64.mul z F64.nan) (repeat F64.zero (length test_X)))
      else Raise e
  | Ok model => rf_predict model test_X
  end.

(** The pool returns the results in order and re-raises a worker's
    exception in the caller; the value is what [to_netcdf] then writes to
    [predictions.nc]. *)
Definition fit_predict (train_data test_data : Dataset) (config : Config)
  : result rf_netcdf :=
  pred_y ← rmapM (train_fn train_data test_data config) (times train_data);
  rf_assign test_data (target config +:+ "_pred") pred_y.
End RF.
End RF.

(** ** DeepTime: the forward pass *)

Module DeepTime.
Local Open Scope R_scope.

(** A two-dimensional tensor: its shape and its entries (entries outside
    the shape carry no meaning).  A three-dimensional tensor is the list of
    its slices along the leading axis. *)
Record matrix : Type := { rows : nat; cols : nat; ent : nat -> nat -> R }.

Fixpoint rsum (n : nat) (f : nat -> R) : R :=
  match n with
  | O => 0
  | S m => rsum m f + f m
  end.

(** [A.T] *)
Definition transpose (A : matrix) : matrix :=
  {| rows := cols A; cols := rows A; ent := fun i j => ent A j i |}.

(** [A @ B] *)
Definition matmul (A C : matrix) : result matrix :=
  if Nat.eqb (cols A) (rows C)
  then Ok {| rows := rows A; cols := cols C;
             ent := fun i j => rsum (cols A) (fun k => ent A i k * ent C k j) |}
  else Raise RuntimeError.

(** [torch.ones(n, m)] *)
Definition ones (n m : nat) : matrix :=
  {| rows := n; cols := m; ent := fun _ _ => 1 |}.

(** [torch.cat([A, C], dim=1)] *)
Definition cat_dim1 (A C : matrix) : result matrix :=
  if Nat.eqb (rows A) (rows C)
  then Ok {| rows := rows A; cols := cols A + cols C;
             ent := fun i j => if Nat.ltb j (cols A) then ent A i j
                               else ent C i (j - cols A) |}
  else Raise RuntimeError.

(** [A.diagonal().add_(e)] *)
Definition diagonal_add (A : matrix) (e : R) : matrix :=
  {| rows := rows A; cols := cols A;
     ent := fun i j => if Nat.eqb i j then ent A i j + e else ent A i j |}.

(** [torch.linalg.cholesky]: the lower factor with positive diagonal, read
    off the lower triangle one column at a time; it fails at the first
    pivot that is not positive.  torch's kernel is outside the repository;
    this is the textbook elimination, whose factor and whose failures are
    those of any Cholesky algorithm in exact arithmetic. *)
Fixpoint chol_rec (n : nat) (A : nat -> nat -> R) : option (nat -> nat -> R) :=
  match n with
  | O => Some (fun _ _ => 0)
  | S m =>
      if Rlt_dec 0 (A O O) then
        let d := sqrt (A O O) in
        let rest := fun i j => A (S i) (S j) - (A (S i) O / d) * (A (S j) O / d) in
        match chol_rec m rest with
        | Some L' =>
            Some (fun i j =>
                    match i, j with
                    | O, O => d
                    | O, S _ => 0
                    | S i', O => A (S i') O / d
                    | S i', S j' => L' i' j'
                    end)
        | None => None
        end
      else None
  end.

Definition cholesky (A : matrix) : result matrix :=
  if Nat.eqb (rows A) (cols A) then
    match chol_rec (rows A) (ent A) with
    | Some L => Ok {| rows := rows A; cols := cols A; ent := L |}
    | None => Raise LinAlgError
    end
  else Raise RuntimeError.

(** Forward substitution [L z = b] and backward substitution
    [L^T x = z] for a lower-triangular [L]. *)
Fixpoint forward_subst (n : nat) (L : nat -> nat -> R) (b : nat -> R) : nat -> R :=
  match n with
  | O => fun _ => 0
  | S m =>
      let z0 := b O / L O O in
      let z' := forward_subst m (fun i j => L (S i) (S j))
                              (fun i => b (S i) - L (S i) O * z0) in
      fun i => match i with O => z0 | S i' => z' i' end
  end.

Fixpoint backward_subst (n : nat) (L : nat -> nat -> R) (z : nat -> R) : nat -> R :=
  match n with
  | O => fun _ => 0
  | S m =>
      let x' := backward_subst m (fun i j => L (S i) (S j)) (fun i => z (S i)) in
      let x0 := (z O - rsum m (fun k => L (S k) O * x' k)) / L O O in
      fun i => match i with O => x0 | S i' => x' i' end
  end.

(** [torch.cholesky_solve(b, L)]: the solution of [(L L^T) x = b], column
    by column, by the two substitutions. *)
Definition cholesky_solve (b L : matrix) : result matrix :=
  if Nat.eqb (rows b) (rows L) && Nat.eqb (rows L) (cols L)
  then Ok {| rows := rows b; cols := cols b;
             ent := fun i j =>
                      backward_subst (rows L) (ent L)
                        (forward_subst (rows L) (ent L) (fun k => ent b k j)) i |}
  else Raise RuntimeError.




Fixpoint zip3 {A C D : Type} (l1 : list A) (l2 : list C) (l3 : list D) : list (A * C * D) :=
  match l1, l2, l3 with
  | a :: l1', c :: l2', d :: l3' => (a, c, d) :: zip3 l1' l2' l3'
  | _, _, _ => []
  end.

(** The encoder [self.mlp]: it may draw from the generator (dropout). *)
Class Encoder : Type := {
  rng : Type;
  mlp : rng -> matrix -> matrix * rng
}.

Section Forward.
Context {E : Encoder}.
Variable log_noise_var : R.

(** Lines 41-42: the covariance of the ridge system. *)
Definition ridge_cov (context_repr : matrix) : result matrix :=
  cov ← matmul (transpose context_repr) context_repr;
  Ok (diagonal_add cov (exp log_noise_var)).

(** Lines 41-46: the weights. *)
Definition ridge_weights (context_repr y_context : matrix) : result matrix :=
  cov ← ridge_cov context_repr;
  xty ← matmul (transpose context_repr) y_context;
  chol ← cholesky cov;
  cholesky_solve xty chol.

Definition single_dim_calc (g : rng) (x_context y_context x_target : matrix)
  : result (matrix * rng) :=
  let '(context_repr, g) := mlp g x_context in
  let '(target_repr, g) := mlp g x_target in
  context_repr ← cat_dim1 context_repr (ones (rows context_repr) 1);
  target_repr ← cat_dim1 target_repr (ones (rows target_repr) 1);
  w ← ridge_weights context_repr y_context;
  y_pred ← matmul target_repr w;
  Ok (y_pred, g).

(** [torch.vmap(f, in_dims=(0, 0, 0), out_dims=0, randomness="same")]:
    [f] on every slice of the leading axis, each time from the same
    generator state; the generator advances as in one call. *)
Definition vmap_same (f : rng -> matrix -> matrix -> matrix -> result (matrix * rng))
           (g : rng) (xs ys zs : list matrix) : result (list matrix * rng) :=
  if Nat.eqb (length xs) (length ys) && Nat.eqb (length ys) (length zs) then
    outs ← rmapM (fun '(x, y, z) => f g x y z) (zip3 xs ys zs);
    Ok (map fst outs, match outs with [] => g | (_, g') :: _ => g' end)
  else Raise ValueError.



End Forward.

(** *** Vocabulary of the ridge system *)









End DeepTime.

(** ** Rearrangements of the context *)

Module TensorOps.
Import DeepTime.
Local Open Scope R_scope.




End TensorOps.

(** ** Observations on a run *)

(** The artifacts written, in order. *)
Definition saves (log : list event) : list artifact :=
  flat_map (fun ev => match ev with Saved a => [a] | EpochDone _ _ => [] end) log.

(** The epochs (as printed, from 1) after which [model.pt] was written:
    those whose line is preceded by a save of the model. *)
Fixpoint saved_epochs_from (pending : bool) (log : list event) : list nat :=
  match log with
  | [] => []
  | Saved ModelPt :: log' => saved_epochs_from true log'
  | Saved _ :: log' => saved_epochs_from pending log'
  | EpochDone k _ :: log' =>
      if pending then k :: saved_epochs_from false log'
      else saved_epochs_from false log'
  end.
Definition saved_epochs (log : list event) : list nat := saved_epochs_from false log.

(** The events of the epoch loop for per-epoch average losses [ls]. *)
Fixpoint epoch_events (es : list nat) (ls : list spec_float) (best : spec_float) : list event :=
  match es, ls with
  | e :: es', l :: ls' =>
      (if F64.ltb l best then [Saved ModelPt] else [])
        ++ [EpochDone (e + 1) l]
        ++ epoch_events es' ls' (if F64.ltb l best then l else best)
  | _, _ => []
  end.

Definition running_best (ls : list spec_float) (best : spec_float) : spec_float :=
  fold_left (fun b l => if F64.ltb l b then l else b) ls best.

(** The epochs, counted from [k], whose loss is below the best loss before
    them, the best starting at [best]. *)
Fixpoint improving_from (k : nat) (best : spec_float) (ls : list spec_float) : list nat :=
  match ls with
  | [] => []
  | l :: ls' =>
      if F64.ltb l best then k :: improving_from (S k) l ls'
      else improving_from (S k) best ls'
  end.
Definition improving_epochs (ls : list spec_float) : list nat :=
  improving_from 1 F64.inf ls.

(** A frame scaled, feature by feature, with the statistics of the gridded
    data [d]. *)
Definition scale_with (d : Dataset) (fs : list string) (df : DataFrame) : DataFrame :=
  fold_left (fun df f => set_col f (scale (F64.nanmin (values d f)) (F64.nanmax (values d f))) df)
            fs df.


(** The order of the doubles that are not nan, as a lexicographic order on
    integer triples. *)
Definition rank (f : spec_float) : Z * Z * Z :=
  match f with
  | S754_zero _ => (0, 0, 0)%Z
  | S754_nan => (0, 0, 0)%Z
  | S754_infinity false => (2, 0, 0)%Z
  | S754_infinity true => (-2, 0, 0)%Z
  | S754_finite false m e => (1, e, Zpos m)%Z
  | S754_finite true m e => (-1, - e, - Zpos m)%Z
  end.

Definition lex_lt (a b : Z * Z * Z) : Prop :=
  let '(a1, a2, a3) := a in
  let '(b1, b2, b3) := b in
  (a1 < b1 \/ (a1 = b1 /\ (a2 < b2 \/ (a2 = b2 /\ a3 < b3))))%Z.

Definition not_nan (f : spec_float) : Prop := f <> S754_nan.

(** The statistics of feature [f] in the metadata are those of the gridded
    data [d]. *)
Definition stats_of (d : Dataset) (meta : gmap string meta_value) (f : string) : Prop :=
  meta !! (f +:+ "_min") = Some (MFloat (F64.nanmin (values d f))) /\
  meta !! (f +:+ "_max") = Some (MFloat (F64.nanmax (values d f))).

(** The item of [predict]'s dataset at time-step [t]. *)
Definition predict_item (config : Config) (train_df test_df : DataFrame) (t : Z) : item :=
  (features_tensor (features config) (at_time t train_df),
   target_tensor (target config) (at_time t train_df),
   features_tensor (features config) (at_time t test_df),
   target_tensor (target config) (at_time t test_df)).

(** The lines printed by the epoch loop: epoch number and loss. *)
Definition printed (log : list event) : list (nat * spec_float) :=
  flat_map (fun ev => match ev with EpochDone k l => [(k, l)] | Saved _ => [] end) log.

(** ** Concrete collaborators *)

(** A scripted backend, to run the glue on concrete inputs: the k-th
    optimisation step returns the k-th entry of [script] (a loss or an
    exception), the sampler keeps the order, and numpy's generator rotates
    the identity by its state. *)
Definition rotate (k n : nat) : list nat :=
  skipn (k mod n) (seq 0 n) ++ firstn (k mod n) (seq 0 n).

Lemma rotate_perm (k n : nat) : Permutation (rotate k n) (seq 0 n).
Proof.
  unfold rotate.
  rewrite <- (firstn_skipn (k mod n) (seq 0 n)) at 3.
  apply Permutation_app_comm.
Qed.

Definition scripted (script : list (result spec_float)) : Backend :=
  {| torch_state := nat;
     np_state := nat;
     params := nat;
     checkpoint := nat;
     netcdf := list (list tensor);
     torch_manual_seed := fun seed => Z.to_nat seed;
     torch_randperm := fun g n => (seq 0 n, S g);
     np_permutation := fun s n => (rotate s n, S s);
     np_permutation_perm := fun s n => rotate_perm s n;
     new_model := fun _ g => (O, S g);
     train_step := fun _ cnp _ g =>
       (S g, match nth cnp script (Raise RuntimeError) with
             | Ok loss => Ok (S cnp, loss)
             | Raise e => Raise e
             end);
     state_dict := fun cnp => cnp;
     load_state_dict := fun _ c => Ok c;
     predict_step := fun _ items =>
       Ok (map (fun it : item => map (fun _ => [F64.zero]) (snd (fst it))) items);
     xr_assign := fun _ _ y_pred => Ok y_pred |}.

Definition fresh_world {B : Backend} (g : torch_state) (s : np_state) : world :=
  {| w_torch := g; w_numpy := s; w_model_pt := None; w_metadata_pt := None;
     w_predictions_nc := None; w_log := [] |}.

(** One time-step with ten stations; the feature "x" and the target "y" of
    station [s] are both [s + 1]. *)
Definition ten_stations : Dataset :=
  {| times := [0%Z];
     stations := [0; 1; 2; 3; 4; 5; 6; 7; 8; 9]%Z;
     var := fun _ _ s => F64.of_Z (s + 1) |}.

(** 0.7 as a double. *)
Definition f64_0_7 : spec_float := S754_finite false 6305039478318694 (-53).

Definition demo_config (n_epochs : nat) : Config :=
  {| features := ["x"%string]; target := "y"%string; context_fraction := f64_0_7;
     batch_size := 1; epochs := n_epochs; random_state := 0;
     n_estimators := 100; max_depth := None |}.

(** A scikit-learn double whose [fit] raises [e]. *)
Definition sklearn_raising (e : exn) : Sklearn :=
  {| forest := unit;
     rf_netcdf := list (list spec_float);
     rf_fit := fun _ _ _ => Raise e;
     rf_predict := fun _ X => Ok (map (fun _ => F64.zero) X);
     rf_assign := fun _ _ pred_y => Ok pred_y |}.

(** Two stations at one time-step, all targets missing. *)
Definition all_missing : Dataset :=
  {| times := [0%Z];
     stations := [0; 1]%Z;
     var := fun c _ s => if String.eqb c "y" then F64.nan else F64.of_Z s |}.





(** The backend whose four optimisation steps give the losses 5, 3, 4, 2. *)
Definition curve_5_3_4_2 : Backend :=
  scripted [Ok (F64.of_Z 5); Ok (F64.of_Z 3); Ok (F64.of_Z 4); Ok (F64.of_Z 2)].

(** Two time-steps with two stations; the feature "x" is 3 everywhere. *)
Definition flat_feature : Dataset :=
  {| times := [0; 1]%Z;
     stations := [0; 1]%Z;
     var := fun c _ s => if String.eqb c "x" then F64.of_Z 3 else F64.of_Z s |}.

(** One time-step, one that [all_missing] does not have. *)
Definition later_step : Dataset :=
  {| times := [1%Z];
     stations := [0; 1]%Z;
     var := fun _ _ s => F64.of_Z s |}.

(** Two time-steps; at time 0 the data of [all_missing]. *)
Definition two_steps : Dataset :=
  {| times := [0; 1]%Z;
     stations := [0; 1]%Z;
     var := fun c t s => if (t =? 0)%Z then var all_missing c t s else F64.of_Z (s + 1) |}.

(* ================================================================== *)
(** * Part II: properties                                              *)
(* ================================================================== *)

(** ** Linear algebra behind the ridge solve *)

Module Ridge.
Import DeepTime.
Local Open Scope R_scope.




























(** *** The ridge head of [single_dim_calc] *)








(** The vmapped stage on any number of slices: slice by slice it is the
    direct call from the shared generator state. *)
Lemma vmap_same_slices `{E : Encoder} (log_noise_var : R) (g : rng)
      (xs ys zs : list matrix) (outs : list matrix) (g' : rng) :
  vmap_same (single_dim_calc log_noise_var) g xs ys zs = Ok (outs, g') ->
  length outs = length xs /\
  forall i x y z, nth_error xs i = Some x -> nth_error ys i = Some y ->
                  nth_error zs i = Some z ->
                  exists p gi, single_dim_calc log_noise_var g x y z = Ok (p, gi) /\
                               nth_error outs i = Some p.
Proof.
  unfold vmap_same.
  destruct (Nat.eqb (length xs) (length ys) && Nat.eqb (length ys) (length zs)) eqn:Hlen;
    [|discriminate].
  apply andb_prop in Hlen as [H1 H2].
  apply Nat.eqb_eq in H1. apply Nat.eqb_eq in H2.
  destruct (rmapM _ (zip3 xs ys zs)) as [os|e] eqn:Hm; [|discriminate].
  cbn. intros Heq. injection Heq as <- _. clear g'.
  revert ys zs os H1 H2 Hm.
  induction xs as [|x xs IH]; intros [|y ys] [|z zs] os H1 H2 Hm; try discriminate.
  - cbn in Hm. injection Hm as <-. split; [reflexivity|].
    intros i ? ? ? Hx. destruct i; discriminate.
  - cbn in Hm.
    destruct (single_dim_calc log_noise_var g x y z) as [[p gi]|e] eqn:Hs; [|discriminate].
    destruct (rmapM _ (zip3 xs ys zs)) as [os'|e] eqn:Hm'; [|discriminate].
    injection Hm as <-.
    cbn in H1, H2.
    destruct (IH ys zs os' ltac:(lia) ltac:(lia) Hm') as [Hl Hn].
    split; [cbn; rewrite Hl; reflexivity|].
    intros [|i] x0 y0 z0 Hx Hy Hz; cbn in *.
    + injection Hx as <-. injection Hy as <-. injection Hz as <-.
      exists p, gi. split; [exact Hs | reflexivity].
    + apply (Hn i x0 y0 z0); assumption.
Qed.




End Ridge.

(** ** Doubles *)

Section Doubles.
Local Open Scope Z_scope.






End Doubles.

(** ** Index arrays and splits *)

Lemma rmapM_app {A C : Type} (f : A -> result C) (a b : list A) :
  rmapM f (a ++ b)
  = match rmapM f a with
    | Ok x => match rmapM f b with
              | Ok y => Ok (x ++ y)
              | Raise e => Raise e
              end
    | Raise e => Raise e
    end.
Proof.
  induction a as [|x a IH]; cbn.
  - destruct (rmapM f b); reflexivity.
  - destruct (f x); [|reflexivity]. rewrite IH.
    destruct (rmapM f a); [|reflexivity]. destruct (rmapM f b); reflexivity.
Qed.

Lemma rmapM_length {A C : Type} (f : A -> result C) (l : list A) (r : list C) :
  rmapM f l = Ok r -> length r = length l.
Proof.
  revert r. induction l as [|x l IH]; cbn; intros r H.
  - injection H as <-. reflexivity.
  - destruct (f x); [|discriminate]. destruct (rmapM f l); [|discriminate].
    injection H as <-. cbn. f_equal. apply IH. reflexivity.
Qed.

Lemma rmapM_perm {A C : Type} (f : A -> result C) (l1 l2 : list A) :
  Permutation l1 l2 ->
  forall r1, rmapM f l1 = Ok r1 -> exists r2, rmapM f l2 = Ok r2 /\ Permutation r1 r2.
Proof.
  induction 1 as [|x l l' Hp IH|x y l|l l' l'' Hp1 IH1 Hp2 IH2]; intros r1 H; cbn in *.
  - exists r1. split; [exact H | apply Permutation_refl].
  - destruct (f x) as [c|]; [|discriminate].
    destruct (rmapM f l) as [r|] eqn:Hr; [|discriminate].
    injection H as <-. destruct (IH r eq_refl) as [r2 [-> Hr2]].
    exists (c :: r2). split; [reflexivity | apply perm_skip; exact Hr2].
  - destruct (f y) as [cy|]; [|discriminate].
    destruct (f x) as [cx|]; [|discriminate].
    destruct (rmapM f l) as [r|]; [|discriminate].
    injection H as <-. exists (cx :: cy :: r). split; [reflexivity | apply perm_swap].
  - destruct (IH1 r1 H) as [r2 [H2 Hp12]].
    destruct (IH2 r2 H2) as [r3 [H3 Hp23]].
    exists r3. split; [exact H3 | eapply Permutation_trans; eassumption].
Qed.

Lemma take_rows_seq_from {A : Type} (pre X : list A) :
  take_rows (pre ++ X) (seq (length pre) (length X)) = Ok X.
Proof.
  revert pre. induction X as [|a X IH]; intros pre; [reflexivity|].
  unfold take_rows in *. cbn [length seq rmapM].
  rewrite nth_error_app2 by lia. rewrite Nat.sub_diag. cbn [nth_error].
  specialize (IH (pre ++ [a])).
  rewrite <- app_assoc in IH. cbn [app] in IH.
  rewrite length_app in IH. cbn [length] in IH.
  replace (length pre + 1)%nat with (S (length pre)) in IH by lia.
  rewrite IH. reflexivity.
Qed.

Lemma take_rows_perm {A : Type} (X : list A) (idx : list nat) :
  Permutation idx (seq 0 (length X)) ->
  exists l, take_rows X idx = Ok l /\ Permutation l X.
Proof.
  intros Hp.
  pose proof (take_rows_seq_from [] X) as Hs. cbn in Hs.
  destruct (rmapM_perm _ _ _ (Permutation_sym Hp) X Hs) as [l [Hl Hpl]].
  exists l. split; [exact Hl | apply Permutation_sym; exact Hpl].
Qed.

Lemma slice_bound_le (k : Z) (n : nat) : slice_bound k n <= n.
Proof. unfold slice_bound. destruct (k <? 0)%Z eqn:E; lia. Qed.

(** The split of [__getitem__] on an index array that is a permutation:
    it returns, the context has [slice_bound num_context n] points, the
    target has the rest, and together they are the points of the time-step. *)
Lemma split_spec `{B : Backend} (num_context : Z) (X y : tensor) (idx : list nat) :
  length y = length X ->
  Permutation idx (seq 0 (length X)) ->
  exists X_context y_context X_target y_target,
    split num_context X y idx = Ok (X_context, y_context, X_target, y_target) /\
    length X_context = slice_bound num_context (length X) /\
    length y_context = slice_bound num_context (length X) /\
    length X_target = length X - slice_bound num_context (length X) /\
    length y_target = length X - slice_bound num_context (length X) /\
    Permutation (X_context ++ X_target) X /\
    Permutation (y_context ++ y_target) y.
Proof.
  intros Hlen Hp.
  assert (Hidx : length idx = length X).
  { rewrite (Permutation_length Hp). apply length_seq. }
  destruct (take_rows_perm X idx Hp) as [lX [HX HpX]].
  assert (Hp' : Permutation idx (seq 0 (length y))) by (rewrite Hlen; exact Hp).
  destruct (take_rows_perm y idx Hp') as [ly [Hy Hpy]].
  unfold take_rows in HX, Hy.
  rewrite <- (firstn_skipn (slice_bound num_context (length idx)) idx) in HX, Hy.
  rewrite rmapM_app in HX, Hy.
  unfold split, slice_to, slice_from, take_rows.
  destruct (rmapM _ (firstn _ idx)) as [Xc|] eqn:HXc in HX; [|discriminate].
  destruct (rmapM _ (skipn _ idx)) as [Xt|] eqn:HXt in HX; [|discriminate].
  destruct (rmapM _ (firstn _ idx)) as [yc|] eqn:Hyc in Hy; [|discriminate].
  destruct (rmapM _ (skipn _ idx)) as [yt|] eqn:Hyt in Hy; [|discriminate].
  injection HX as <-. injection Hy as <-.
  rewrite HXc, Hyc, HXt, Hyt. cbn.
  exists Xc, yc, Xt, yt.
  pose proof (slice_bound_le num_context (length idx)) as Hle.
  apply rmapM_length in HXc, HXt, Hyc, Hyt.
  rewrite length_firstn in HXc, Hyc. rewrite length_skipn in HXt, Hyt.
  rewrite Hidx in *.
  repeat split; try assumption; lia.
Qed.

(** [fit]'s [__getitem__] on a world: the only state it reads or writes is
    numpy's generator. *)
Lemma fit_getitem_unfold `{B : Backend} (config : Config) (df : DataFrame) (idx : nat)
      (t : Z) (w : world) :
  nth_error (fit_ts df) idx = Some t ->
  let ts_df := dropna (target config) (at_time t df) in
  let X := features_tensor (features config) ts_df in
  let y := target_tensor (target config) ts_df in
  let w' := {| w_torch := w_torch w;
               w_numpy := snd (np_permutation (w_numpy w) (length X));
               w_model_pt := w_model_pt w; w_metadata_pt := w_metadata_pt w;
               w_predictions_nc := w_predictions_nc w; w_log := w_log w |} in
  fit_getitem config df idx w
  = (w', match num_context config (length X) with
         | Ok k => split k X y (fst (np_permutation (w_numpy w) (length X)))
         | Raise e => Raise e
         end).
Proof.
  intros Hn. unfold fit_getitem. rewrite Hn. cbn zeta.
  unfold bind, permutation, lift.
  destruct (np_permutation _ _) as [i s]. cbn [fst snd].
  destruct (num_context config _); reflexivity.
Qed.

(** ** The context/target split of [fit] *)

(** With ten usable stations and [context_fraction = 0.7] the product
    [0.7 * 10] is the double 7.0, so the context has 7 points and the target
    3, whatever the generators do. *)
Lemma ten_station_split_sizes `{B : Backend} (config : Config) (df : DataFrame)
      (idx : nat) (t : Z) (w : world) :
  context_fraction config = f64_0_7 ->
  nth_error (fit_ts df) idx = Some t ->
  length (dropna (target config) (at_time t df)) = 10 ->
  exists w' X_context y_context X_target y_target,
    fit_getitem config df idx w = (w', Ok (X_context, y_context, X_target, y_target)) /\
    length X_context = 7 /\ length y_context = 7 /\
    length X_target = 3 /\ length y_target = 3.
Proof.
  intros Hcf Hn Hlen.
  rewrite (fit_getitem_unfold config df idx t w Hn). cbn zeta.
  set (ts_df := dropna (target config) (at_time t df)) in *.
  assert (HX : length (features_tensor (features config) ts_df) = 10).
  { unfold features_tensor. rewrite length_map. exact Hlen. }
  assert (Hy : length (target_tensor (target config) ts_df)
               = length (features_tensor (features config) ts_df)).
  { unfold target_tensor, features_tensor. rewrite !length_map. reflexivity. }
  assert (Hk : num_context config (length (features_tensor (features config) ts_df)) = Ok 7%Z).
  { rewrite HX. unfold num_context. rewrite Hcf. vm_compute. reflexivity. }
  rewrite Hk.
  destruct (split_spec 7 _ _ (fst (np_permutation (w_numpy w)
                                     (length (features_tensor (features config) ts_df))))
              Hy (np_permutation_perm _ _))
    as [Xc [yc [Xt [yt [Hs [H1 [H2 [H3 [H4 _]]]]]]]]].
  rewrite HX in H1, H2, H3, H4.
  eexists _, Xc, yc, Xt, yt. split; [rewrite Hs; reflexivity|].
  repeat split; assumption.
Qed.

(** Seeding torch does not reach the split: it is drawn from numpy's
    generator, which [fit] never seeds. *)
Lemma seed_does_not_reach_split `{B : Backend} (config : Config) (df : DataFrame)
      (idx : nat) (seed : Z) (w : world) :
  snd (bind (manual_seed seed) (fun _ => fit_getitem config df idx) w)
  = snd (fit_getitem config df idx w).
Proof.
  unfold bind, manual_seed.
  destruct (nth_error (fit_ts df) idx) as [t|] eqn:Hn.
  - rewrite !(fit_getitem_unfold config df idx t _ Hn). reflexivity.
  - unfold fit_getitem. rewrite Hn. reflexivity.
Qed.

(** C4.  Two runs with the same [config.random_state] on the ten-station
    time-step, started with numpy's generator in two different states:
    both splits have 7 context and 3 target points, and the splits differ. *)
Theorem same_seed_different_split :
  let B := scripted [] in
  let config := demo_config 1 in
  let df := to_dataframe ten_stations in
  let run := fun s : nat =>
    snd (bind (manual_seed (random_state config)) (fun _ => fit_getitem config df 0)
              (fresh_world (B := B) 0 s)) in
  (exists X_context y_context X_target y_target,
      run 0 = Ok (X_context, y_context, X_target, y_target) /\
      length X_context = 7 /\ length X_target = 3) /\
  (exists X_context y_context X_target y_target,
      run 1 = Ok (X_context, y_context, X_target, y_target) /\
      length X_context = 7 /\ length X_target = 3) /\
  run 0 <> run 1.
Proof.
  cbv zeta. split; [|split].
  - vm_compute. eexists _, _, _, _. split; [reflexivity|]. split; reflexivity.
  - vm_compute. eexists _, _, _, _. split; [reflexivity|]. split; reflexivity.
  - vm_compute. intros H. discriminate H.
Qed.

(** ** Missing targets *)

Lemma to_f32_nan (x : spec_float) : F64.is_nan x = true -> F64.to_f32 x = F64.nan.
Proof. destruct x; cbn; intros H; try discriminate; reflexivity. Qed.

(** C10.  At a time-step [t] of the training frame, [predict]'s dataset
    returns as context all training rows at [t] (no row is dropped), so a
    row with a missing target puts a nan into the context targets; [fit]'s
    dataset builds its points from the rows at [t] whose target is not
    missing, and only from them. *)
Theorem missing_targets_reach_predict_context `{B : Backend} (config : Config)
        (train_df test_df : DataFrame) (idx : nat) (t : Z) :
  nth_error (unique (map r_time train_df)) idx = Some t ->
  predict_getitem config train_df test_df idx
  = Ok (features_tensor (features config) (at_time t train_df),
        target_tensor (target config) (at_time t train_df),
        features_tensor (features config) (at_time t test_df),
        target_tensor (target config) (at_time t test_df))
  /\
  (forall r, In r train_df -> r_time r = t ->
             F64.is_nan (r_col r (target config)) = true ->
             In [F64.nan] (target_tensor (target config) (at_time t train_df)))
  /\
  (forall w w' X_context y_context X_target y_target,
      fit_getitem config train_df idx w
      = (w', Ok (X_context, y_context, X_target, y_target)) ->
      Permutation (X_context ++ X_target)
                  (features_tensor (features config)
                                   (dropna (target config) (at_time t train_df))) /\
      Permutation (y_context ++ y_target)
                  (target_tensor (target config)
                                 (dropna (target config) (at_time t train_df))))
  /\
  (forall r, In r (dropna (target config) (at_time t train_df)) <->
             In r train_df /\ r_time r = t /\
             F64.is_nan (r_col r (target config)) = false).
Proof.
  intros Hn. split; [|split; [|split]].
  - unfold predict_getitem, predict_ts. rewrite Hn. reflexivity.
  - intros r Hin Ht Hnan. unfold target_tensor.
    rewrite <- (to_f32_nan _ Hnan).
    apply (in_map (fun r => [F64.to_f32 (r_col r (target config))])).
    unfold at_time. apply filter_In. split; [exact Hin | apply Z.eqb_eq; exact Ht].
  - intros w w' Xc yc Xt yt Hg.
    rewrite (fit_getitem_unfold config train_df idx t w Hn) in Hg. cbn zeta in Hg.
    injection Hg as _ Hg.
    destruct (num_context config _) as [k|]; [|discriminate].
    set (ts_df := dropna (target config) (at_time t train_df)) in *.
    assert (Hy : length (target_tensor (target config) ts_df)
                 = length (features_tensor (features config) ts_df)).
    { unfold target_tensor, features_tensor. rewrite !length_map. reflexivity. }
    destruct (split_spec k _ _ _ Hy (np_permutation_perm (w_numpy w) _))
      as [Xc' [yc' [Xt' [yt' [Hs [_ [_ [_ [_ [HpX Hpy]]]]]]]]]].
    rewrite Hs in Hg. injection Hg as <- <- <- <-. split; assumption.
  - intros r. unfold dropna, at_time. rewrite !filter_In, Z.eqb_eq, negb_true_iff. tauto.
Qed.

Lemma missing_targets_reach_predict_context_witness :
  let B := scripted [] in
  let config := demo_config 1 in
  let train_df := to_dataframe all_missing in
  let test_df := to_dataframe all_missing in
  predict_getitem config train_df test_df 0
  = Ok (features_tensor (features config) (at_time 0 train_df),
        target_tensor (target config) (at_time 0 train_df),
        features_tensor (features config) (at_time 0 test_df),
        target_tensor (target config) (at_time 0 test_df))
  /\
  (forall r, In r train_df -> r_time r = 0%Z ->
             F64.is_nan (r_col r (target config)) = true ->
             In [F64.nan] (target_tensor (target config) (at_time 0 train_df)))
  /\
  (forall w w' X_context y_context X_target y_target,
      fit_getitem (B := B) config train_df 0 w
      = (w', Ok (X_context, y_context, X_target, y_target)) ->
      Permutation (X_context ++ X_target)
                  (features_tensor (features config)
                                   (dropna (target config) (at_time 0 train_df))) /\
      Permutation (y_context ++ y_target)
                  (target_tensor (target config)
                                 (dropna (target config) (at_time 0 train_df))))
  /\
  (forall r, In r (dropna (target config) (at_time 0 train_df)) <->
             In r train_df /\ r_time r = 0%Z /\
             F64.is_nan (r_col r (target config)) = false).
Proof.
  cbv zeta.
  apply (missing_targets_reach_predict_context (B := scripted []) (demo_config 1)
           (to_dataframe all_missing) (to_dataframe all_missing) 0 0).
  reflexivity.
Defined.

(** ** An empty context *)




(** ** The random-forest baseline: failures of [fit] *)

Lemma nan_sentinel (n : nat) :
  map (fun z => F64.mul z F64.nan) (repeat F64.zero n) = repeat F64.nan n.
Proof. induction n as [|n IH]; cbn; [reflexivity | rewrite IH; reflexivity]. Qed.

Lemma rmapM_raise {A C : Type} (f : A -> result C) (l : list A) (a : A) (e : exn) :
  In a l -> f a = Raise e -> exists e', rmapM f l = Raise e'.
Proof.
  induction l as [|x l IH]; intros Hin Hf; [contradiction|].
  cbn. destruct Hin as [->|Hin].
  - rewrite Hf. eauto.
  - destruct (f x); [|eauto]. destruct (IH Hin Hf) as [e' ->]. eauto.
Qed.

(** C9, as the code has it.  When the forest's [fit] raises at a time-step:
    a [ValueError] is caught and the time-step's output is a vector of nan
    of the test length; an exception of another class leaves [train_fn] and
    aborts the run. *)
Theorem rf_fit_failure `{K : Sklearn} (train_data test_data : Dataset) (config : Config)
        (ts : Z) (train_df test_df : DataFrame) (e : exn) :
  RF.sel train_data ts = Ok train_df ->
  RF.sel test_data ts = Ok test_df ->
  rf_fit config
         (map (fun r => map (r_col r) (features config)) (dropna (target config) train_df))
         (map (fun r => r_col r (target config)) (dropna (target config) train_df))
  = Raise e ->
  (is_ValueError e = true ->
   RF.train_fn train_data test_data config ts = Ok (repeat F64.nan (length test_df))) /\
  (is_ValueError e = false ->
   RF.train_fn train_data test_data config ts = Raise e /\
   (In ts (times train_data) ->
    exists e', RF.fit_predict train_data test_data config = Raise e')).
Proof.
  intros Htr Hte Hfit.
  assert (Hfn : RF.train_fn train_data test_data config ts
                = if is_ValueError e
                  then Ok (repeat F64.nan (length test_df)) else Raise e).
  { unfold RF.train_fn. rewrite Htr. cbn. rewrite Hte. cbn. rewrite Hfit.
    rewrite length_map, nan_sentinel. reflexivity. }
  split; intros He; rewrite He in Hfn; [exact Hfn|].
  split; [exact Hfn|].
  intros Hin. unfold RF.fit_predict.
  destruct (rmapM_raise _ _ ts e Hin Hfn) as [e' ->]. exists e'. reflexivity.
Qed.

Lemma rf_fit_failure_witness :
  let K := sklearn_raising ValueError in
  let config := demo_config 0 in
  (is_ValueError ValueError = true ->
   RF.train_fn (K := K) all_missing all_missing config 0
   = Ok (repeat F64.nan (length (to_dataframe all_missing)))) /\
  (is_ValueError ValueError = false ->
   RF.train_fn (K := K) all_missing all_missing config 0 = Raise ValueError /\
   (In 0%Z (times all_missing) ->
    exists e', RF.fit_predict (K := K) all_missing all_missing config = Raise e')).
Proof.
  cbv zeta.
  apply (rf_fit_failure (K := sklearn_raising ValueError) all_missing all_missing
           (demo_config 0) 0 (to_dataframe all_missing) (to_dataframe all_missing) ValueError);
    reflexivity.
Defined.

(** A failure of [fit] that is not a [ValueError] is not caught: the
    time-step gets no sentinel and the run raises. *)
Lemma rf_other_failure_aborts :
  let K := sklearn_raising MemoryError in
  let config := demo_config 0 in
  rf_fit (Sklearn := K) config
         (map (fun r => map (r_col r) (features config))
              (dropna (target config) (to_dataframe all_missing)))
         (map (fun r => r_col r (target config))
              (dropna (target config) (to_dataframe all_missing)))
  = Raise MemoryError /\
  RF.train_fn (K := K) all_missing all_missing config 0 = Raise MemoryError /\
  RF.fit_predict (K := K) all_missing all_missing config = Raise MemoryError.
Proof. cbv zeta. repeat split. Qed.

(** ** The monad of the glue *)

Section GlueFacts.
Context {B : Backend}.

Lemma same_disk_refl (w : world) : same_disk w w.
Proof. repeat split. Qed.

Lemma same_disk_trans (w1 w2 w3 : world) :
  same_disk w1 w2 -> same_disk w2 w3 -> same_disk w1 w3.
Proof.
  intros (a1 & a2 & a3 & a4) (b1 & b2 & b3 & b4).
  repeat split; congruence.
Qed.

Lemma silent_ret {A : Type} (a : A) : silent (ret a).
Proof. intros w w' r H. injection H as <- _. apply same_disk_refl. Qed.

Lemma silent_raise {A : Type} (e : exn) : silent (raise (A := A) e).
Proof. intros w w' r H. injection H as <- _. apply same_disk_refl. Qed.

Lemma silent_lift {A : Type} (x : result A) : silent (lift x).
Proof. intros w w' r H. injection H as <- _. apply same_disk_refl. Qed.

Lemma silent_bind {A C : Type} (m : M A) (k : A -> M C) :
  silent m -> (forall a, silent (k a)) -> silent (bind m k).
Proof.
  intros Hm Hk w w' r H. unfold bind in H.
  destruct (m w) as [w1 [a|e]] eqn:E.
  - eapply same_disk_trans; [exact (Hm _ _ _ E) | exact (Hk _ _ _ _ H)].
  - injection H as <- _. exact (Hm _ _ _ E).
Qed.

Lemma silent_with_torch {A : Type} (f : torch_state -> torch_state * result A) :
  silent (with_torch f).
Proof.
  intros w w' r H. unfold with_torch in H.
  destruct (f (w_torch w)) as [g x]. injection H as <- _. repeat split.
Qed.

Lemma silent_permutation (n : nat) : silent (permutation n).
Proof.
  intros w w' r H. unfold permutation in H.
  destruct (np_permutation (w_numpy w) n) as [i s]. injection H as <- _. repeat split.
Qed.

Lemma silent_manual_seed (seed : Z) : silent (manual_seed seed).
Proof. intros w w' r H. injection H as <- _. repeat split. Qed.

Lemma silent_load_model : silent load_model.
Proof. intros w w' r H. injection H as <- _. apply same_disk_refl. Qed.

Lemma silent_load_metadata : silent load_metadata.
Proof. intros w w' r H. injection H as <- _. apply same_disk_refl. Qed.

Lemma silent_mapM {A C : Type} (f : A -> M C) (l : list A) :
  (forall a, silent (f a)) -> silent (mapM f l).
Proof.
  intros Hf. induction l as [|a l IH]; cbn [mapM].
  - apply silent_ret.
  - apply silent_bind; [apply Hf|]. intros c.
    apply silent_bind; [exact IH|]. intros cs. apply silent_ret.
Qed.

Lemma silent_foldM {A S : Type} (f : S -> A -> M S) (l : list A) :
  (forall s a, silent (f s a)) -> forall s, silent (foldM f l s).
Proof.
  intros Hf. induction l as [|a l IH]; intros s; cbn [foldM].
  - apply silent_ret.
  - apply silent_bind; [apply Hf | intros s'; apply IH].
Qed.

Lemma silent_fit_getitem (config : Config) (df : DataFrame) (idx : nat) :
  silent (fit_getitem config df idx).
Proof.
  unfold fit_getitem. destruct (nth_error (fit_ts df) idx); [|apply silent_raise].
  apply silent_bind; [apply silent_permutation|]. intros i.
  apply silent_bind; [apply silent_lift|]. intros k. apply silent_lift.
Qed.

Lemma silent_train_batch (config : Config) (df : DataFrame) (st : params * spec_float)
      (batch : list nat) : silent (train_batch config df st batch).
Proof.
  unfold train_batch. destruct st as [cnp epoch_loss].
  apply silent_bind; [apply silent_mapM; intros a; apply silent_fit_getitem|]. intros items.
  apply silent_bind; [apply silent_with_torch|]. intros [cnp' loss]. apply silent_ret.
Qed.

Lemma silent_train_epoch (config : Config) (df : DataFrame) (cnp : params) :
  silent (train_epoch config df cnp).
Proof.
  unfold train_epoch.
  apply silent_bind; [apply silent_with_torch|]. intros order.
  apply silent_bind; [apply silent_foldM; intros s a; apply silent_train_batch|].
  intros [cnp' epoch_loss].
  apply silent_bind; [apply silent_lift|]. intros avg. apply silent_ret.
Qed.

(** One epoch: it raises without a trace, or it logs its line, preceded
    by a save of the model exactly when the average loss is below the
    best so far. *)
Lemma epoch_body_spec (config : Config) (df : DataFrame) (cnp : params)
      (losses : list spec_float) (best : spec_float) (epoch : nat) (w w' : world)
      (r : result (params * list spec_float * spec_float)) :
  epoch_body config df (cnp, losses, best) epoch w = (w', r) ->
  (exists e, r = Raise e /\ same_disk w w') \/
  (exists cnp' avg,
      r = Ok (cnp', losses ++ [avg], if F64.ltb avg best then avg else best) /\
      w_log w' = w_log w ++ (if F64.ltb avg best then [Saved ModelPt] else [])
                             ++ [EpochDone (epoch + 1) avg] /\
      w_metadata_pt w' = w_metadata_pt w /\
      w_predictions_nc w' = w_predictions_nc w /\
      w_model_pt w' = if F64.ltb avg best then Some (state_dict cnp') else w_model_pt w).
Proof.
  unfold epoch_body. unfold bind at 1.
  destruct (train_epoch config df cnp w) as [w1 [[cnp' avg]|e]] eqn:E; intros H.
  - right. exists cnp', avg.
    destruct (silent_train_epoch _ _ _ _ _ _ E) as (d1 & d2 & d3 & d4).
    destruct (F64.ltb avg best); cbn in H; injection H as <- <-; cbn;
      rewrite ?d1, ?d2, ?d3, ?d4; repeat split.
    rewrite <- app_assoc. reflexivity.
  - left. exists e. injection H as <- <-. split; [reflexivity|].
    exact (silent_train_epoch _ _ _ _ _ _ E).
Qed.

Lemma bind_inv {A C : Type} (m : M A) (k : A -> M C) (w w' : world) (r : result C) :
  bind m k w = (w', r) ->
  (exists w1 a, m w = (w1, Ok a) /\ k a w1 = (w', r)) \/
  (exists e, m w = (w', Raise e) /\ r = Raise e).
Proof.
  unfold bind. destruct (m w) as [w1 [a|e]]; intros H.
  - left. eauto.
  - right. injection H as <- <-. eauto.
Qed.

Lemma saves_app (l1 l2 : list event) : saves (l1 ++ l2) = saves l1 ++ saves l2.
Proof. unfold saves. apply flat_map_app. Qed.

(** The epoch loop: the epochs that complete leave the events of their
    average losses; a raise ends the loop before its epoch logs anything. *)
Lemma epochs_loop_spec (config : Config) (df : DataFrame) (es : list nat) :
  forall (cnp : params) (losses : list spec_float) (best : spec_float) (w w' : world)
         (r : result (params * list spec_float * spec_float)),
    foldM (epoch_body config df) es (cnp, losses, best) w = (w', r) ->
    exists ls,
      w_log w' = w_log w ++ epoch_events es ls best /\
      w_metadata_pt w' = w_metadata_pt w /\
      w_predictions_nc w' = w_predictions_nc w /\
      (saves (epoch_events es ls best) = [] -> w_model_pt w' = w_model_pt w) /\
      (saves (epoch_events es ls best) <> [] -> w_model_pt w' <> None) /\
      match r with
      | Ok (_, losses', best') =>
          length ls = length es /\ losses' = losses ++ ls /\ best' = running_best ls best
      | Raise _ => length ls < length es
      end.
Proof.
  induction es as [|e es IH]; intros cnp losses best w w' r H.
  - injection H as <- <-. exists []. cbn. rewrite !app_nil_r. repeat split; congruence.
  - cbn [foldM] in H. apply bind_inv in H as [(w1 & [[cnp1 losses1] best1] & E & H)|(err & E & ->)];
      apply epoch_body_spec in E as [(err' & Hr & Hd)|(cnp' & avg & Hr & Hlog & Hm & Hp & Hmod)];
      try discriminate.
    + injection Hr as -> -> ->.
      destruct (IH _ _ _ _ _ _ H) as (ls & Hlog' & Hm' & Hp' & Hs0 & Hs1 & Hres).
      exists (avg :: ls). cbn [epoch_events].
      split; [rewrite Hlog', Hlog, <- !app_assoc; reflexivity|].
      split; [congruence|]. split; [congruence|].
      rewrite !saves_app. cbn [saves flat_map app].
      destruct (F64.ltb avg best) eqn:Hlt; cbn [saves flat_map app].
      * split; [discriminate|]. split.
        -- intros _. destruct (saves (epoch_events es ls avg)) eqn:Hsv.
           ++ rewrite (Hs0 eq_refl), Hmod. discriminate.
           ++ apply Hs1. discriminate.
        -- destruct r as [[[c l] b]|]; [|cbn; lia].
           destruct Hres as (Hl & -> & ->). repeat split; [cbn; lia | |].
           ++ rewrite <- app_assoc. reflexivity.
           ++ cbn. rewrite Hlt. reflexivity.
      * split; [intros Hsv; rewrite (Hs0 Hsv); exact Hmod|].
        split; [exact Hs1|].
        destruct r as [[[c l] b]|]; [|cbn; lia].
        destruct Hres as (Hl & -> & ->). repeat split; [cbn; lia | |].
        -- rewrite <- app_assoc. reflexivity.
        -- cbn. rewrite Hlt. reflexivity.
    + destruct Hd as (d1 & d2 & d3 & d4).
      exists []. cbn. rewrite app_nil_r. repeat split; try congruence. lia.
Qed.

(** [fit]: the events of the epochs that completed, then the save of the
    metadata when it returns; the metadata saved is the dictionary of the
    statistics with the loss curve added. *)
Lemma fit_spec (train_data : Dataset) (config : Config) (w w' : world) (r : result unit) :
  fit train_data config w = (w', r) ->
  exists ls,
    w_log w' = w_log w ++ epoch_events (seq 0 (epochs config)) ls F64.inf
                       ++ (match r with Ok _ => [Saved MetadataPt] | Raise _ => [] end) /\
    w_predictions_nc w' = w_predictions_nc w /\
    (saves (epoch_events (seq 0 (epochs config)) ls F64.inf) = [] ->
     w_model_pt w' = w_model_pt w) /\
    (saves (epoch_events (seq 0 (epochs config)) ls F64.inf) <> [] ->
     w_model_pt w' <> None) /\
    match r with
    | Ok _ =>
        length ls = epochs config /\
        exists meta_dict train_df,
          fit_features train_data (features config) ∅ (to_dataframe train_data)
          = Ok (meta_dict, train_df) /\
          w_metadata_pt w' = Some (<["losses" := MLosses ls]> meta_dict)
    | Raise _ => w_metadata_pt w' = w_metadata_pt w
    end.
Proof.
  unfold fit. intros H.
  assert (Hquiet : forall w1, same_disk w w1 ->
            exists ls : list spec_float,
              w_log w1 = w_log w ++ epoch_events (seq 0 (epochs config)) ls F64.inf ++ [] /\
              w_predictions_nc w1 = w_predictions_nc w /\
              (saves (epoch_events (seq 0 (epochs config)) ls F64.inf) = [] ->
               w_model_pt w1 = w_model_pt w) /\
              (saves (epoch_events (seq 0 (epochs config)) ls F64.inf) <> [] ->
               w_model_pt w1 <> None) /\
              w_metadata_pt w1 = w_metadata_pt w).
  { intros w1 (d1 & d2 & d3 & d4). exists [].
    destruct (seq 0 (epochs config)); cbn; rewrite app_nil_r; repeat split; congruence. }
  apply bind_inv in H as [(w1 & [] & E1 & H)|(err & E1 & ->)];
    [|apply Hquiet; exact (silent_manual_seed _ _ _ _ E1)].
  pose proof (silent_manual_seed _ _ _ _ E1) as D1.
  apply bind_inv in H as [(w2 & [meta_dict train_df] & E2 & H)|(err & E2 & ->)];
    [|apply Hquiet; eapply same_disk_trans; [exact D1 | exact (silent_lift _ _ _ _ E2)]].
  pose proof (same_disk_trans _ _ _ D1 (silent_lift _ _ _ _ E2)) as D2.
  injection E2 as _ E2.
  apply bind_inv in H as [(w3 & [] & E3 & H)|(err & E3 & ->)].
  2:{ apply Hquiet. eapply same_disk_trans; [exact D2|].
      destruct (batch_size config =? 0)%nat;
        [exact (silent_raise _ _ _ _ E3) | exact (silent_ret _ _ _ _ E3)]. }
  assert (D3 : same_disk w w3).
  { eapply same_disk_trans; [exact D2|].
    destruct (batch_size config =? 0)%nat;
      [exact (silent_raise _ _ _ _ E3) | exact (silent_ret _ _ _ _ E3)]. }
  apply bind_inv in H as [(w4 & cnp & E4 & H)|(err & E4 & ->)];
    [|apply Hquiet; eapply same_disk_trans; [exact D3 | exact (silent_with_torch _ _ _ _ E4)]].
  pose proof (same_disk_trans _ _ _ D3 (silent_with_torch _ _ _ _ E4)) as (d1 & d2 & d3 & d4).
  apply bind_inv in H as [(w5 & [[cnp' losses] best] & E5 & H)|(err & E5 & ->)];
    apply epochs_loop_spec in E5 as (ls & Hlog & Hm & Hp & Hs0 & Hs1 & Hres).
  - destruct Hres as (Hlen & -> & ->). rewrite length_seq in Hlen.
    cbn in H. injection H as <- <-. exists ls. cbn.
    split; [rewrite Hlog, d4, <- app_assoc; reflexivity|].
    split; [congruence|].
    split; [intros Hsv; rewrite (Hs0 Hsv); exact d1|].
    split; [exact Hs1|].
    split; [exact Hlen|]. exists meta_dict, train_df. split; [exact E2 | reflexivity].
  - exists ls. rewrite app_nil_r.
    split; [rewrite Hlog, d4; reflexivity|].
    split; [congruence|].
    split; [intros Hsv; rewrite (Hs0 Hsv); exact d1|].
    split; [exact Hs1 | congruence].
Qed.

(** [predict]: it writes [predictions.nc], last, when it returns, and
    nothing when it raises; it returns only if both files of [fit] were
    there to load. *)
Lemma predict_with_frames_spec (test_data : Dataset) (config : Config)
      (train_df test_df : DataFrame) (w w' : world) (r : result unit) :
  predict_with_frames test_data config train_df test_df w = (w', r) ->
  match r with
  | Ok _ =>
      w_log w' = w_log w ++ [Saved PredictionsNc] /\
      w_model_pt w' = w_model_pt w /\ w_model_pt w <> None /\
      w_metadata_pt w' = w_metadata_pt w /\
      w_predictions_nc w' <> None
  | Raise _ => same_disk w w'
  end.
Proof.
  unfold predict_with_frames. intros H.
  apply bind_inv in H as [(w1 & [] & E1 & H)|(err & E1 & ->)].
  2:{ destruct (batch_size config =? 0)%nat;
        [exact (silent_raise _ _ _ _ E1) | exact (silent_ret _ _ _ _ E1)]. }
  assert (D1 : same_disk w w1).
  { destruct (batch_size config =? 0)%nat;
      [exact (silent_raise _ _ _ _ E1) | exact (silent_ret _ _ _ _ E1)]. }
  apply bind_inv in H as [(w2 & cnp & E2 & H)|(err & E2 & ->)];
    [|eapply same_disk_trans; [exact D1 | exact (silent_with_torch _ _ _ _ E2)]].
  pose proof (same_disk_trans _ _ _ D1 (silent_with_torch _ _ _ _ E2)) as D2.
  apply bind_inv in H as [(w3 & ckpt & E3 & H)|(err & E3 & ->)];
    [|eapply same_disk_trans; [exact D2 | exact (silent_load_model _ _ _ E3)]].
  pose proof (same_disk_trans _ _ _ D2 (silent_load_model _ _ _ E3)) as D3.
  assert (Hmodel : w_model_pt w2 <> None).
  { unfold load_model in E3. destruct (w_model_pt w2); [discriminate|].
    injection E3 as _ E3. discriminate. }
  apply bind_inv in H as [(w4 & cnp' & E4 & H)|(err & E4 & ->)];
    [|eapply same_disk_trans; [exact D3 | exact (silent_lift _ _ _ _ E4)]].
  pose proof (same_disk_trans _ _ _ D3 (silent_lift _ _ _ _ E4)) as D4.
  apply bind_inv in H as [(w5 & y_pred & E5 & H)|(err & E5 & ->)];
    [|eapply same_disk_trans; [exact D4 | exact (silent_lift _ _ _ _ E5)]].
  pose proof (same_disk_trans _ _ _ D4 (silent_lift _ _ _ _ E5)) as D5.
  apply bind_inv in H as [(w6 & nc & E6 & H)|(err & E6 & ->)];
    [|eapply same_disk_trans; [exact D5 | exact (silent_lift _ _ _ _ E6)]].
  pose proof (same_disk_trans _ _ _ D5 (silent_lift _ _ _ _ E6)) as (d1 & d2 & d3 & d4).
  destruct D2 as (e1 & _).
  injection H as <- <-. cbn. repeat split; try congruence.
Qed.

Lemma predict_spec (test_data train_data : Dataset) (config : Config) (w w' : world)
      (r : result unit) :
  predict test_data train_data config w = (w', r) ->
  match r with
  | Ok _ =>
      w_log w' = w_log w ++ [Saved PredictionsNc] /\
      w_model_pt w' = w_model_pt w /\ w_model_pt w <> None /\
      w_metadata_pt w' = w_metadata_pt w /\ w_metadata_pt w <> None /\
      w_predictions_nc w' <> None
  | Raise _ => same_disk w w'
  end.
Proof.
  unfold predict. intros H.
  apply bind_inv in H as [(w1 & meta & E1 & H)|(err & E1 & ->)];
    [|exact (silent_load_metadata _ _ _ E1)].
  pose proof (silent_load_metadata _ _ _ E1) as D1.
  assert (Hmeta : w_metadata_pt w <> None).
  { unfold load_metadata in E1. destruct (w_metadata_pt w); [discriminate|].
    injection E1 as _ E1. discriminate. }
  apply bind_inv in H as [(w2 & [train_df test_df] & E2 & H)|(err & E2 & ->)];
    [|eapply same_disk_trans; [exact D1 | exact (silent_lift _ _ _ _ E2)]].
  pose proof (same_disk_trans _ _ _ D1 (silent_lift _ _ _ _ E2)) as D2.
  apply predict_with_frames_spec in H.
  destruct r as [[]|err].
  - destruct D2 as (d1 & d2 & d3 & d4). destruct H as (h1 & h2 & h3 & h4 & h5).
    repeat split; congruence.
  - eapply same_disk_trans; eassumption.
Qed.
End GlueFacts.

(** ** The order of doubles *)

Section FloatOrder.
Local Open Scope Z_scope.

Lemma SFltb_rank (a b : spec_float) :
  not_nan a -> not_nan b -> (SFltb a b = true <-> lex_lt (rank a) (rank b)).
Proof.
  intros Ha Hb. unfold SFltb, SFcompare.
  destruct a as [sa|sa| |sa ma ea], b as [sb|sb| |sb mb eb];
    try (exfalso; apply Ha; reflexivity); try (exfalso; apply Hb; reflexivity);
    try destruct sa; try destruct sb; cbn -[Z.compare Pos.compare_cont];
    try (split; [discriminate | lia]); try (split; [lia | lia]);
    try (split; [intros _; lia | reflexivity]).
  - rewrite Pos.compare_cont_spec. cbn [Pos.switch_Eq].
    destruct (Z.compare_spec ea eb); destruct (Pos.compare_spec ma mb); cbn;
      split; try discriminate; try lia; try reflexivity.
  - rewrite Pos.compare_cont_spec. cbn [Pos.switch_Eq].
    destruct (Z.compare_spec ea eb); destruct (Pos.compare_spec ma mb); cbn;
      split; try discriminate; try lia; try reflexivity.
Qed.

Lemma SFltb_not_nan (a b : spec_float) : SFltb a b = true -> not_nan a /\ not_nan b.
Proof.
  unfold SFltb, SFcompare, not_nan.
  destruct a as [sa|sa| |sa ma ea], b as [sb|sb| |sb mb eb]; intros H; try discriminate;
    split; discriminate.
Qed.

Lemma SFltb_trans (a b c : spec_float) :
  SFltb a b = true -> SFltb b c = true -> SFltb a c = true.
Proof.
  intros H1 H2.
  destruct (SFltb_not_nan _ _ H1) as [Ha Hb]. destruct (SFltb_not_nan _ _ H2) as [_ Hc].
  apply (SFltb_rank a b Ha Hb) in H1. apply (SFltb_rank b c Hb Hc) in H2.
  apply (SFltb_rank a c Ha Hc).
  destruct (rank a) as [[a1 a2] a3], (rank b) as [[b1 b2] b3], (rank c) as [[c1 c2] c3].
  unfold lex_lt in *. lia.
Qed.

Lemma SFltb_below (a b c : spec_float) :
  SFltb a b = true -> SFltb c b = false -> not_nan c -> SFltb a c = true.
Proof.
  intros H1 H2 Hc.
  destruct (SFltb_not_nan _ _ H1) as [Ha Hb].
  apply (SFltb_rank a b Ha Hb) in H1.
  assert (H3 : ~ lex_lt (rank c) (rank b)).
  { intros H. apply (SFltb_rank c b Hc Hb) in H. congruence. }
  apply (SFltb_rank a c Ha Hc).
  destruct (rank a) as [[a1 a2] a3], (rank b) as [[b1 b2] b3], (rank c) as [[c1 c2] c3].
  unfold lex_lt in *. lia.
Qed.

Lemma is_number_not_nan (a : spec_float) : F64.is_number a = true -> not_nan a.
Proof. destruct a; cbn; intros H; try discriminate; intros E; discriminate. Qed.

Lemma is_number_below_inf (a : spec_float) :
  F64.is_number a = true -> F64.ltb a F64.inf = true.
Proof. destruct a as [s|s| |s m e]; cbn; intros H; try discriminate; reflexivity. Qed.

End FloatOrder.

(** ** Keys of the metadata dictionary *)

Lemma list_ascii_of_string_app (a b : string) :
  list_ascii_of_string (a +:+ b) = (list_ascii_of_string a ++ list_ascii_of_string b)%list.
Proof.
  induction a as [|c a IH]; [reflexivity|].
  change (String c a +:+ b) with (String c (a +:+ b)).
  cbn [list_ascii_of_string app]. rewrite IH. reflexivity.
Qed.

Lemma append_min_inj (f f' : string) : f +:+ "_min" = f' +:+ "_min" -> f = f'.
Proof.
  intros H. apply (f_equal list_ascii_of_string) in H.
  rewrite !list_ascii_of_string_app in H. apply app_inv_tail in H.
  rewrite <- (string_of_list_ascii_of_string f), <- (string_of_list_ascii_of_string f').
  rewrite H. reflexivity.
Qed.

Lemma append_max_inj (f f' : string) : f +:+ "_max" = f' +:+ "_max" -> f = f'.
Proof.
  intros H. apply (f_equal list_ascii_of_string) in H.
  rewrite !list_ascii_of_string_app in H. apply app_inv_tail in H.
  rewrite <- (string_of_list_ascii_of_string f), <- (string_of_list_ascii_of_string f').
  rewrite H. reflexivity.
Qed.

Lemma last_char_differs (a b : string) (p q : list ascii) (x y : ascii) :
  x <> y ->
  list_ascii_of_string a = (p ++ [x])%list -> list_ascii_of_string b = (q ++ [y])%list -> a <> b.
Proof.
  intros Hxy Ha Hb E. subst b. rewrite Ha in Hb. apply app_inj_tail in Hb as [_ Hb]. contradiction.
Qed.

Lemma min_key_not_max_key (f f' : string) : f +:+ "_min" <> f' +:+ "_max".
Proof.
  apply (last_char_differs _ _ (list_ascii_of_string f ++ list_ascii_of_string "_mi")
           (list_ascii_of_string f' ++ list_ascii_of_string "_ma") "n"%char "x"%char).
  - discriminate.
  - rewrite list_ascii_of_string_app, <- app_assoc. reflexivity.
  - rewrite list_ascii_of_string_app, <- app_assoc. reflexivity.
Qed.

Lemma losses_not_min_key (f : string) : "losses" <> f +:+ "_min".
Proof.
  apply (last_char_differs _ _ (list_ascii_of_string "losse")
           (list_ascii_of_string f ++ list_ascii_of_string "_mi") "s"%char "n"%char).
  - discriminate.
  - reflexivity.
  - rewrite list_ascii_of_string_app, <- app_assoc. reflexivity.
Qed.

Lemma losses_not_max_key (f : string) : "losses" <> f +:+ "_max".
Proof.
  apply (last_char_differs _ _ (list_ascii_of_string "losse")
           (list_ascii_of_string f ++ list_ascii_of_string "_ma") "s"%char "x"%char).
  - discriminate.
  - reflexivity.
  - rewrite list_ascii_of_string_app, <- app_assoc. reflexivity.
Qed.

(** ** Artifacts of a run (C6) *)

Lemma saves_epoch_events (es : list nat) (ls : list spec_float) (best : spec_float) :
  exists k, saves (epoch_events es ls best) = repeat ModelPt k.
Proof.
  revert ls best. induction es as [|e es IH]; intros [|l ls] best;
    try (exists 0; reflexivity).
  cbn [epoch_events]. rewrite !saves_app.
  destruct (IH ls (if F64.ltb l best then l else best)) as [k Hk]. rewrite Hk.
  destruct (F64.ltb l best).
  - exists (S k). reflexivity.
  - exists k. reflexivity.
Qed.

(** C6, as the code has it.  [fit_predict] writes [model.pt] once after
    every improving epoch, then [metadata.pt], then [predictions.nc].  A run
    that returns has written the last two and leaves all three files in the
    working directory; it has written [model.pt] too when none was there
    before.  A run that raises never writes [predictions.nc]; it
    has written [model.pt] for the improving epochs completed before the
    failure, and [metadata.pt] as well when the failure came in [predict]. *)
Theorem fit_predict_artifacts `{B : Backend} (train_data test_data : Dataset)
        (config : Config) (w : world) :
  let '(w', r) := fit_predict train_data test_data config w in
  exists run k,
    w_log w' = w_log w ++ run /\
    match r with
    | Ok _ =>
        saves run = repeat ModelPt k ++ [MetadataPt; PredictionsNc] /\
        (w_model_pt w = None -> 1 <= k) /\
        w_model_pt w' <> None /\ w_metadata_pt w' <> None /\ w_predictions_nc w' <> None
    | Raise _ =>
        saves run = repeat ModelPt k \/ saves run = repeat ModelPt k ++ [MetadataPt]
    end.
Proof.
  destruct (fit_predict train_data test_data config w) as [w' r] eqn:H.
  unfold fit_predict in H.
  apply bind_inv in H as [(w1 & [] & E1 & H)|(err & E1 & ->)];
    apply fit_spec in E1 as (ls & Hlog & Hp & Hs0 & Hs1 & Hres).
  - destruct (saves_epoch_events (seq 0 (epochs config)) ls F64.inf) as [k Hk].
    destruct Hres as (Hlen & meta_dict & train_df & Hfeat & Hmeta).
    apply predict_spec in H. destruct r as [[]|err].
    + destruct H as (h1 & h2 & h3 & h4 & h5 & h6).
      exists (epoch_events (seq 0 (epochs config)) ls F64.inf
                ++ [Saved MetadataPt] ++ [Saved PredictionsNc]), k.
      split; [rewrite h1, Hlog, <- !app_assoc; reflexivity|].
      rewrite !saves_app, Hk. cbn. split; [reflexivity|]. split.
      { intros Hnone. destruct k as [|k]; [|lia]. exfalso. apply h3.
        rewrite (Hs0 Hk). exact Hnone. }
      repeat split; congruence.
    + destruct H as (d1 & d2 & d3 & d4).
      exists (epoch_events (seq 0 (epochs config)) ls F64.inf ++ [Saved MetadataPt]), k.
      split; [rewrite d4, Hlog; reflexivity|].
      right. rewrite saves_app, Hk. reflexivity.
  - destruct (saves_epoch_events (seq 0 (epochs config)) ls F64.inf) as [k Hk].
    exists (epoch_events (seq 0 (epochs config)) ls F64.inf), k.
    split; [rewrite Hlog, app_nil_r; reflexivity|].
    left. exact Hk.
Qed.

(** A run whose second epoch raises: [model.pt] of the first epoch is on
    disk, the other two files are not. *)
Lemma partial_artifacts_after_raise :
  let B := scripted [Ok (F64.of_Z 5); Raise LinAlgError] in
  let '(w', r) := fit_predict (B := B) ten_stations ten_stations (demo_config 2)
                              (fresh_world (B := B) 0 0) in
  r = Raise LinAlgError /\
  saves (w_log w') = [ModelPt] /\
  w_model_pt w' = Some 1 /\ w_metadata_pt w' = None /\ w_predictions_nc w' = None /\
  ~ ((exists u, r = Ok u /\ saves (w_log w') = [ModelPt; MetadataPt; PredictionsNc]) \/
     (exists e, r = Raise e /\ saves (w_log w') = [])).
Proof.
  cbv zeta.
  destruct (fit_predict (B := scripted [Ok (F64.of_Z 5); Raise LinAlgError])
              ten_stations ten_stations (demo_config 2)
              (fresh_world (B := scripted [Ok (F64.of_Z 5); Raise LinAlgError]) 0 0))
    as [w' r] eqn:H.
  vm_compute in H. injection H as <- <-.
  repeat split.
  intros [(u & Hu & _)|(e & _ & He)]; discriminate.
Qed.

(** ** Checkpoints (C7) *)

Lemma saved_epochs_loop (ls : list spec_float) :
  forall (k : nat) (best : spec_float) (tail : list event),
    saved_epochs_from false (epoch_events (seq k (length ls)) ls best ++ tail)
    = improving_from (k + 1) best ls ++ saved_epochs_from false tail.
Proof.
  induction ls as [|l ls IH]; intros k best tail; [reflexivity|].
  cbn [length seq epoch_events improving_from].
  destruct (F64.ltb l best); cbn [app saved_epochs_from];
    rewrite (IH (S k)); replace (S k + 1) with (S (k + 1)) by lia; reflexivity.
Qed.

(** Among losses that are numbers, the improving epochs are those whose
    loss is below the loss of every epoch before them. *)
Lemma improving_from_spec (ls : list spec_float) :
  forall (k0 : nat) (best : spec_float),
    not_nan best ->
    Forall (fun l => F64.is_number l = true) ls ->
    forall k, In k (improving_from k0 best ls) <->
              exists i, k = k0 + i /\ i < length ls /\
                        F64.ltb (nth i ls F64.nan) best = true /\
                        forall j, j < i -> F64.ltb (nth i ls F64.nan) (nth j ls F64.nan) = true.
Proof.
  induction ls as [|l ls IH]; intros k0 best Hbest Hnum k.
  - cbn. split; [contradiction | intros (i & _ & Hi & _); lia].
  - apply Forall_cons_iff in Hnum as [Hl Hls].
    pose proof (is_number_not_nan l Hl) as Hln.
    cbn [improving_from]. destruct (F64.ltb l best) eqn:Hlt.
    + cbn [In]. rewrite (IH (S k0) l Hln Hls k). split.
      * intros [<-|(i & -> & Hi & Hb & Hj)].
        -- exists 0. cbn. repeat split; [lia | lia | exact Hlt | intros j Hj; lia].
        -- exists (S i). cbn [nth length].
           repeat split; [lia | lia | exact (SFltb_trans _ _ _ Hb Hlt) |].
           intros [|j] Hj'; [exact Hb | apply Hj; lia].
      * intros (i & -> & Hi & Hb & Hj). destruct i as [|i]; [left; lia|].
        right. exists i. cbn [nth length] in *.
        repeat split; [lia | lia | apply (Hj 0); lia |].
        intros j Hj'. apply (Hj (S j)). lia.
    + rewrite (IH (S k0) best Hbest Hls k). split.
      * intros (i & -> & Hi & Hb & Hj). exists (S i). cbn [nth length].
        repeat split; [lia | lia | exact Hb |].
        intros [|j] Hj'; [exact (SFltb_below _ _ _ Hb Hlt Hln) | apply Hj; lia].
      * intros (i & -> & Hi & Hb & Hj). destruct i as [|i].
        -- cbn in Hb. unfold F64.ltb in Hlt, Hb. congruence.
        -- exists i. cbn [nth length] in *.
           repeat split; [lia | lia | exact Hb |].
           intros j Hj'. apply (Hj (S j)). lia.
Qed.

(** C7, as the code has it.  After a [fit] that returns, started with an
    empty log: the epochs after which [model.pt] was written are the
    improving epochs of the loss curve saved in the metadata (a loss
    improves when [loss < best] holds for the best loss so far, which starts
    at infinity).  When every loss is a number, these are the epochs whose
    loss is strictly below the loss of every earlier epoch.  For the curve
    5.0, 3.0, 4.0, 2.0 they are the epochs 1, 2 and 4. *)
Theorem checkpoint_on_improvement `{B : Backend} (train_data : Dataset) (config : Config)
        (w w' : world) :
  w_log w = [] ->
  fit train_data config w = (w', Ok tt) ->
  exists meta losses,
    w_metadata_pt w' = Some meta /\
    meta !! "losses"%string = Some (MLosses losses) /\
    length losses = epochs config /\
    saved_epochs (w_log w') = improving_epochs losses /\
    (Forall (fun l => F64.is_number l = true) losses ->
     forall k, 1 <= k <= epochs config ->
               (In k (saved_epochs (w_log w')) <->
                forall j, 1 <= j < k ->
                          F64.ltb (nth (k - 1) losses F64.nan) (nth (j - 1) losses F64.nan)
                          = true)) /\
    (losses = map F64.of_Z [5; 3; 4; 2]%Z -> saved_epochs (w_log w') = [1; 2; 4]).
Proof.
  intros Hempty H.
  apply fit_spec in H as (ls & Hlog & _ & _ & _ & Hlen & meta_dict & train_df & _ & Hmeta).
  exists (<["losses"%string := MLosses ls]> meta_dict), ls.
  assert (Hsaved : saved_epochs (w_log w') = improving_epochs ls).
  { rewrite Hlog, Hempty. cbn [app]. unfold saved_epochs, improving_epochs.
    rewrite <- Hlen. rewrite saved_epochs_loop. cbn. apply app_nil_r. }
  split; [exact Hmeta|]. split; [apply lookup_insert_eq|]. split; [exact Hlen|].
  split; [exact Hsaved|]. split.
  - intros Hnum k Hk. rewrite Hsaved. unfold improving_epochs.
    rewrite (improving_from_spec ls 1 F64.inf ltac:(discriminate) Hnum k). split.
    + intros (i & -> & Hi & _ & Hj) j Hj'.
      replace (1 + i - 1) with i by lia. apply Hj. lia.
    + intros Hall. exists (k - 1). repeat split; [lia | lia | |].
      * apply is_number_below_inf.
        rewrite List.Forall_forall in Hnum. apply Hnum. apply nth_In. lia.
      * intros j Hj. replace j with (S j - 1) by lia. apply Hall. lia.
  - intros ->. rewrite Hsaved. vm_compute. reflexivity.
Qed.

Lemma checkpoint_on_improvement_witness :
  let w' := fst (fit (B := curve_5_3_4_2) ten_stations (demo_config 4)
                     (fresh_world (B := curve_5_3_4_2) 0 0)) in
  exists meta losses,
    w_metadata_pt w' = Some meta /\
    meta !! "losses"%string = Some (MLosses losses) /\
    length losses = epochs (demo_config 4) /\
    saved_epochs (w_log w') = improving_epochs losses /\
    (Forall (fun l => F64.is_number l = true) losses ->
     forall k, 1 <= k <= epochs (demo_config 4) ->
               (In k (saved_epochs (w_log w')) <->
                forall j, 1 <= j < k ->
                          F64.ltb (nth (k - 1) losses F64.nan) (nth (j - 1) losses F64.nan)
                          = true)) /\
    (losses = map F64.of_Z [5; 3; 4; 2]%Z -> saved_epochs (w_log w') = [1; 2; 4]).
Proof.
  cbv zeta.
  apply (checkpoint_on_improvement (B := curve_5_3_4_2) ten_stations (demo_config 4)
           (fresh_world (B := curve_5_3_4_2) 0 0)).
  - reflexivity.
  - vm_compute. reflexivity.
Defined.

(** A curve with a nan: the first epoch is not saved although no epoch
    precedes it, and the second is saved although its loss is not below the
    first. *)
Lemma nan_loss_checkpoints :
  let B := scripted [Ok F64.nan; Ok (F64.of_Z 3)] in
  let run := fit (B := B) ten_stations (demo_config 2) (fresh_world (B := B) 0 0) in
  let losses := [F64.nan; F64.of_Z 3] in
  snd run = Ok tt /\
  match w_metadata_pt (fst run) with
  | Some meta => meta !! "losses"%string
  | None => None
  end = Some (MLosses losses) /\
  saved_epochs (w_log (fst run)) = [2] /\
  ~ (forall k, 1 <= k <= 2 ->
               (In k (saved_epochs (w_log (fst run))) <->
                forall j, 1 <= j < k ->
                          F64.ltb (nth (k - 1) losses F64.nan) (nth (j - 1) losses F64.nan)
                          = true)).
Proof.
  cbv zeta.
  assert (Hsv : saved_epochs
                  (w_log (fst (fit (B := scripted [Ok F64.nan; Ok (F64.of_Z 3)]) ten_stations
                                   (demo_config 2)
                                   (fresh_world (B := scripted [Ok F64.nan; Ok (F64.of_Z 3)])
                                                0 0))))
                = [2]) by (vm_compute; reflexivity).
  split; [vm_compute; reflexivity|].
  split; [vm_compute; reflexivity|].
  split; [exact Hsv|].
  rewrite Hsv. intros Hall.
  destruct (Hall 1 ltac:(lia)) as [_ Hback].
  assert (Hin : In 1 [2]) by (apply Hback; intros j Hj; lia).
  destruct Hin as [Hin|[]]. discriminate.
Qed.

(** ** Normalisation statistics (C8) *)

Lemma data_min_value (d : Dataset) (f : string) (v : spec_float) :
  data_min d f = Ok v -> v = F64.nanmin (values d f).
Proof.
  unfold data_min. destruct (values d f); [discriminate|]. intros H. injection H as <-.
  reflexivity.
Qed.

Lemma data_max_value (d : Dataset) (f : string) (v : spec_float) :
  data_max d f = Ok v -> v = F64.nanmax (values d f).
Proof.
  unfold data_max. destruct (values d f); [discriminate|]. intros H. injection H as <-.
  reflexivity.
Qed.

Lemma stats_of_insert (d : Dataset) (meta : gmap string meta_value) (f f' : string) :
  stats_of d meta f ->
  stats_of d (<[f' +:+ "_max" := MFloat (F64.nanmax (values d f'))]>
                (<[f' +:+ "_min" := MFloat (F64.nanmin (values d f'))]> meta)) f.
Proof.
  intros [Hmin Hmax]. split.
  - rewrite lookup_insert_ne by (intros E; symmetry in E; exact (min_key_not_max_key _ _ E)).
    destruct (decide (f' +:+ "_min" = f +:+ "_min")) as [E|E].
    + rewrite E, lookup_insert_eq. apply append_min_inj in E. subst f'. reflexivity.
    + rewrite lookup_insert_ne by exact E. exact Hmin.
  - destruct (decide (f' +:+ "_max" = f +:+ "_max")) as [E|E].
    + rewrite E, lookup_insert_eq. apply append_max_inj in E. subst f'. reflexivity.
    + rewrite lookup_insert_ne by exact E.
      rewrite lookup_insert_ne by (apply min_key_not_max_key). exact Hmax.
Qed.

Lemma stats_of_new (d : Dataset) (meta : gmap string meta_value) (f : string) :
  stats_of d (<[f +:+ "_max" := MFloat (F64.nanmax (values d f))]>
                (<[f +:+ "_min" := MFloat (F64.nanmin (values d f))]> meta)) f.
Proof.
  split.
  - rewrite lookup_insert_ne by (intros E; symmetry in E; exact (min_key_not_max_key _ _ E)).
    apply lookup_insert_eq.
  - apply lookup_insert_eq.
Qed.

Lemma stats_of_losses (d : Dataset) (meta : gmap string meta_value) (f : string)
      (ls : list spec_float) :
  stats_of d meta f -> stats_of d (<["losses"%string := MLosses ls]> meta) f.
Proof.
  intros [Hmin Hmax]. split.
  - rewrite lookup_insert_ne by (apply losses_not_min_key). exact Hmin.
  - rewrite lookup_insert_ne by (apply losses_not_max_key). exact Hmax.
Qed.

(** The loop of [fit] keeps the statistics already in the dictionary and
    adds those of its features, all computed from the training data. *)
Lemma fit_features_stats (d : Dataset) (fs : list string) :
  forall (meta0 : gmap string meta_value) (df0 : DataFrame)
         (meta : gmap string meta_value) (df : DataFrame),
    fit_features d fs meta0 df0 = Ok (meta, df) ->
    (forall f, stats_of d meta0 f -> stats_of d meta f) /\
    (forall f, In f fs ->
               data_min d f = Ok (F64.nanmin (values d f)) /\
               data_max d f = Ok (F64.nanmax (values d f)) /\
               stats_of d meta f).
Proof.
  induction fs as [|f' fs IH]; intros meta0 df0 meta df H.
  - injection H as <- <-. split; [auto | intros f []].
  - cbn [fit_features] in H.
    destruct (data_min d f') as [mn|] eqn:Hmn; [|discriminate].
    destruct (data_max d f') as [mx|] eqn:Hmx; [|discriminate].
    cbn in H.
    pose proof (data_min_value _ _ _ Hmn) as ->.
    pose proof (data_max_value _ _ _ Hmx) as ->.
    destruct (IH _ _ _ _ H) as [Hkeep Hnew]. split.
    + intros f Hf. apply Hkeep. apply stats_of_insert. exact Hf.
    + intros f [<-|Hin].
      * split; [exact Hmn|]. split; [exact Hmx|]. apply Hkeep. apply stats_of_new.
      * apply Hnew. exact Hin.
Qed.

(** The loop of [predict] on a dictionary that holds the statistics of [d]. *)
Lemma predict_features_stats (d : Dataset) (meta : gmap string meta_value) (fs : list string) :
  (forall f, In f fs -> stats_of d meta f) ->
  forall train_df test_df,
    predict_features meta fs train_df test_df
    = Ok (scale_with d fs train_df, scale_with d fs test_df).
Proof.
  induction fs as [|f fs IH]; intros Hst train_df test_df; [reflexivity|].
  cbn [predict_features scale_with fold_left].
  destruct (Hst f (or_introl eq_refl)) as [Hmin Hmax].
  unfold meta_float. rewrite Hmin. cbn. rewrite Hmax. cbn.
  apply IH. intros f' Hin. apply Hst. right. exact Hin.
Qed.

(** C8.  After a [fit] that returns, the metadata on disk holds, for every
    configured feature, the minimum and maximum that [fit] computed from the
    training data; a later [predict] that finds this metadata scales both
    its training frame and its test frame with exactly these numbers and
    goes on with the two scaled frames: the test data contribute nothing to
    the statistics. *)
Theorem stats_frozen_after_fit `{B : Backend} (train_data : Dataset) (config : Config)
        (w0 w1 : world) :
  fit train_data config w0 = (w1, Ok tt) ->
  exists meta,
    w_metadata_pt w1 = Some meta /\
    (forall f, In f (features config) ->
               data_min train_data f = Ok (F64.nanmin (values train_data f)) /\
               data_max train_data f = Ok (F64.nanmax (values train_data f)) /\
               meta !! (f +:+ "_min") = Some (MFloat (F64.nanmin (values train_data f))) /\
               meta !! (f +:+ "_max") = Some (MFloat (F64.nanmax (values train_data f)))) /\
    forall (test_data train_data' : Dataset) (w : world),
      w_metadata_pt w = Some meta ->
      predict_features meta (features config)
                       (to_dataframe train_data') (to_dataframe test_data)
      = Ok (scale_with train_data (features config) (to_dataframe train_data'),
            scale_with train_data (features config) (to_dataframe test_data)) /\
      predict test_data train_data' config w
      = predict_with_frames test_data config
          (scale_with train_data (features config) (to_dataframe train_data'))
          (scale_with train_data (features config) (to_dataframe test_data)) w.
Proof.
  intros H.
  apply fit_spec in H as (ls & _ & _ & _ & _ & _ & meta_dict & train_df & Hfeat & Hmeta).
  destruct (fit_features_stats _ _ _ _ _ _ Hfeat) as [_ Hst].
  exists (<["losses"%string := MLosses ls]> meta_dict).
  split; [exact Hmeta|]. split.
  - intros f Hin. destruct (Hst f Hin) as (Hmn & Hmx & Hs).
    apply (stats_of_losses _ _ _ ls) in Hs. destruct Hs as [Hs1 Hs2].
    repeat split; assumption.
  - intros test_data train_data' w Hw.
    assert (Hpf : predict_features (<["losses"%string := MLosses ls]> meta_dict)
                    (features config) (to_dataframe train_data') (to_dataframe test_data)
                  = Ok (scale_with train_data (features config) (to_dataframe train_data'),
                        scale_with train_data (features config) (to_dataframe test_data))).
    { apply predict_features_stats. intros f Hin. apply stats_of_losses.
      apply (Hst f Hin). }
    split; [exact Hpf|].
    unfold predict, bind at 1, load_metadata. rewrite Hw.
    unfold bind at 1, lift. rewrite Hpf. reflexivity.
Qed.

Lemma stats_frozen_after_fit_witness :
  let w1 := fst (fit (B := curve_5_3_4_2) ten_stations (demo_config 4)
                     (fresh_world (B := curve_5_3_4_2) 0 0)) in
  let config := demo_config 4 in
  exists meta,
    w_metadata_pt w1 = Some meta /\
    (forall f, In f (features config) ->
               data_min ten_stations f = Ok (F64.nanmin (values ten_stations f)) /\
               data_max ten_stations f = Ok (F64.nanmax (values ten_stations f)) /\
               meta !! (f +:+ "_min") = Some (MFloat (F64.nanmin (values ten_stations f))) /\
               meta !! (f +:+ "_max") = Some (MFloat (F64.nanmax (values ten_stations f)))) /\
    forall (test_data train_data' : Dataset) (w : world (B := curve_5_3_4_2)),
      w_metadata_pt w = Some meta ->
      predict_features meta (features config)
                       (to_dataframe train_data') (to_dataframe test_data)
      = Ok (scale_with ten_stations (features config) (to_dataframe train_data'),
            scale_with ten_stations (features config) (to_dataframe test_data)) /\
      predict test_data train_data' config w
      = predict_with_frames test_data config
          (scale_with ten_stations (features config) (to_dataframe train_data'))
          (scale_with ten_stations (features config) (to_dataframe test_data)) w.
Proof.
  cbv zeta.
  apply (stats_frozen_after_fit (B := curve_5_3_4_2) ten_stations (demo_config 4)
           (fresh_world (B := curve_5_3_4_2) 0 0)).
  vm_compute. reflexivity.
Defined.

(* ================================================================== *)
(** * Part III: further properties of the code                         *)
(* ================================================================== *)

(** ** The forward pass: moments, order and units *)

Module ForwardFacts.
Import DeepTime TensorOps Ridge.
Local Open Scope R_scope.






(** *** The order of the context points *)








(** *** Failures of [single_dim_calc] *)


(** *** The unit of the targets *)







(** *** Linearity in the targets *)


End ForwardFacts.

(** ** Edge cases of the training glue *)

(** X6.  [predict] without the files of [fit]: if [metadata.pt] or
    [model.pt] is not in the working directory, [predict] raises and leaves
    the directory and the log as they were; without [metadata.pt] it raises
    [FileNotFoundError] at once, nothing else having happened. *)
Theorem predict_needs_fit_files `{B : Backend} (test_data train_data : Dataset)
        (config : Config) (w : world) :
  w_metadata_pt w = None \/ w_model_pt w = None ->
  exists w' e,
    predict test_data train_data config w = (w', Raise e) /\ same_disk w w' /\
    (w_metadata_pt w = None -> e = FileNotFoundError /\ w' = w).
Proof.
  intros Hmissing.
  destruct (predict test_data train_data config w) as [w' r] eqn:H.
  pose proof (predict_spec _ _ _ _ _ _ H) as Hspec.
  destruct r as [[]|e].
  - destruct Hspec as (_ & _ & Hmodel & _ & Hmeta & _).
    destruct Hmissing; contradiction.
  - exists w', e. split; [reflexivity|]. split; [exact Hspec|].
    intros Hnone. unfold predict, bind, load_metadata in H. rewrite Hnone in H.
    injection H as <- <-. split; reflexivity.
Qed.

Lemma predict_needs_fit_files_witness :
  exists w' e,
    predict (B := scripted []) ten_stations ten_stations (demo_config 1)
            (fresh_world (B := scripted []) 0 0) = (w', Raise e) /\
    same_disk (fresh_world (B := scripted []) 0 0) w' /\
    (w_metadata_pt (fresh_world (B := scripted []) 0 0) = None ->
     e = FileNotFoundError /\ w' = fresh_world (B := scripted []) 0 0).
Proof.
  apply (predict_needs_fit_files (B := scripted []) ten_stations ten_stations (demo_config 1)
           (fresh_world (B := scripted []) 0 0)).
  left. reflexivity.
Defined.

(** The keys that the loop of [fit] does not write. *)
Lemma fit_features_keys (d : Dataset) (fs : list string) :
  forall (meta0 : gmap string meta_value) (df0 : DataFrame)
         (meta : gmap string meta_value) (df : DataFrame) (k : string),
    fit_features d fs meta0 df0 = Ok (meta, df) ->
    (forall f, In f fs -> k <> f +:+ "_min" /\ k <> f +:+ "_max") ->
    meta !! k = meta0 !! k.
Proof.
  induction fs as [|f' fs IH]; intros meta0 df0 meta df k H Hk.
  - injection H as <- <-. reflexivity.
  - cbn [fit_features] in H.
    destruct (data_min d f') as [mn|]; [|discriminate].
    destruct (data_max d f') as [mx|]; [|discriminate].
    cbn in H.
    rewrite (IH _ _ _ _ k H) by (intros f Hin; apply Hk; right; exact Hin).
    destruct (Hk f' (or_introl eq_refl)) as [Hmin Hmax].
    rewrite !lookup_insert_ne by congruence. reflexivity.
Qed.

Lemma predict_features_unknown (d : Dataset) (meta : gmap string meta_value)
      (known fs : list string) :
  (forall f, In f known -> stats_of d meta f) ->
  (forall f, ~ In f known -> meta !! (f +:+ "_min") = None) ->
  Exists (fun f => ~ In f known) fs ->
  forall train_df test_df, predict_features meta fs train_df test_df = Raise KeyError.
Proof.
  intros Hknown Hunknown. induction fs as [|f fs IH]; intros Hex train_df test_df.
  - inversion Hex.
  - cbn [predict_features]. unfold meta_float.
    destruct (in_dec string_dec f known) as [Hin|Hout].
    + destruct (Hknown f Hin) as [Hmin Hmax]. rewrite Hmin. cbn. rewrite Hmax. cbn.
      apply IH. inversion Hex; subst; [contradiction | assumption].
    + rewrite (Hunknown f Hout). reflexivity.
Qed.

(** X7.  A feature that [fit] did not see: [predict] run with a
    configuration that lists a feature absent from the configuration of the
    [fit] that wrote the metadata raises [KeyError] in its scaling loop and
    changes nothing. *)
Theorem predict_unknown_feature `{B : Backend} (train_data train_data' test_data : Dataset)
        (config config' : Config) (w0 w1 w : world) :
  fit train_data config w0 = (w1, Ok tt) ->
  w_metadata_pt w = w_metadata_pt w1 ->
  Exists (fun f => ~ In f (features config)) (features config') ->
  predict test_data train_data' config' w = (w, Raise KeyError).
Proof.
  intros Hfit Hw Hex.
  apply fit_spec in Hfit as (ls & _ & _ & _ & _ & _ & meta_dict & train_df & Hfeat & Hmeta).
  destruct (fit_features_stats _ _ _ _ _ _ Hfeat) as [_ Hst].
  assert (Hpf : forall a b,
             predict_features (<["losses"%string := MLosses ls]> meta_dict)
                              (features config') a b = Raise KeyError).
  { apply (predict_features_unknown train_data _ (features config)); [| |exact Hex].
    - intros f Hin. apply stats_of_losses. apply (Hst f Hin).
    - intros f Hout.
      rewrite lookup_insert_ne by (apply losses_not_min_key).
      rewrite (fit_features_keys _ _ _ _ _ _ (f +:+ "_min") Hfeat); [apply lookup_empty|].
      intros f' Hin. split.
      + intros E. apply append_min_inj in E. subst f'. contradiction.
      + apply min_key_not_max_key. }
  unfold predict, bind, load_metadata. rewrite Hw, Hmeta. unfold lift. rewrite Hpf.
  reflexivity.
Qed.

Lemma predict_unknown_feature_witness :
  let B := curve_5_3_4_2 in
  let w1 := fst (fit (B := B) ten_stations (demo_config 4) (fresh_world (B := B) 0 0)) in
  let config' :=
    {| features := ["x"%string; "wind"%string]; target := "y"%string;
       context_fraction := f64_0_7; batch_size := 1; epochs := 4; random_state := 0;
       n_estimators := 100; max_depth := None |} in
  predict (B := B) ten_stations ten_stations config' w1 = (w1, Raise KeyError).
Proof.
  cbv zeta.
  apply (predict_unknown_feature (B := curve_5_3_4_2) ten_stations ten_stations ten_stations
           (demo_config 4) _ (fresh_world (B := curve_5_3_4_2) 0 0)
           (fst (fit (B := curve_5_3_4_2) ten_stations (demo_config 4)
                     (fresh_world (B := curve_5_3_4_2) 0 0)))).
  - vm_compute. reflexivity.
  - reflexivity.
  - apply Exists_cons_tl, Exists_cons_hd. cbn. intros [H|[]]. discriminate H.
Defined.

(** An epoch loop without an improving epoch saves nothing. *)
Lemma no_improving_no_saves (ls : list spec_float) :
  forall (es : list nat) (k : nat) (best : spec_float),
    length es = length ls ->
    improving_from k best ls = [] -> saves (epoch_events es ls best) = [].
Proof.
  induction ls as [|l ls IH]; intros [|e es] k best Hlen Himp; try discriminate;
    [reflexivity|].
  cbn [improving_from] in Himp. cbn [epoch_events].
  destruct (F64.ltb l best); [discriminate|].
  rewrite !saves_app. cbn. apply (IH es (S k) best); [cbn in Hlen; lia | exact Himp].
Qed.

(** A [fit] that returns had a positive batch size. *)
Lemma fit_ok_batch_size `{B : Backend} (train_data : Dataset) (config : Config)
      (w w' : world) :
  fit train_data config w = (w', Ok tt) -> (batch_size config =? 0)%nat = false.
Proof.
  unfold fit. intros H.
  apply bind_inv in H as [(w1 & [] & _ & H)|(err & _ & ?)]; [|discriminate].
  apply bind_inv in H as [(w2 & [meta_dict train_df] & _ & H)|(err & _ & ?)]; [|discriminate].
  apply bind_inv in H as [(w3 & [] & E & _)|(err & _ & ?)]; [|discriminate].
  destruct (batch_size config =? 0)%nat; [discriminate | reflexivity].
Qed.

(** X8.  A run in which no epoch improves.  When [fit] returns in a
    directory that had no [model.pt] and no loss of the saved curve was below
    the best loss before it (no epochs, or losses that are nan), no
    checkpoint exists: [fit_predict] raises [FileNotFoundError] from
    [predict], with [metadata.pt] written and [predictions.nc] not. *)
Theorem fit_predict_without_checkpoint `{B : Backend} (train_data test_data : Dataset)
        (config : Config) (w w1 : world) (losses : list spec_float) :
  w_model_pt w = None ->
  fit train_data config w = (w1, Ok tt) ->
  match w_metadata_pt w1 with
  | Some meta => meta !! "losses"%string
  | None => None
  end = Some (MLosses losses) ->
  improving_epochs losses = [] ->
  exists w',
    fit_predict train_data test_data config w = (w', Raise FileNotFoundError) /\
    same_disk w1 w' /\
    w_model_pt w' = None /\ w_metadata_pt w' <> None /\
    w_predictions_nc w' = w_predictions_nc w.
Proof.
  intros Hnone Hfit Hlosses Himp.
  pose proof (fit_ok_batch_size _ _ _ _ Hfit) as Hbs.
  pose proof Hfit as Hspec.
  apply fit_spec in Hspec
    as (ls & _ & Hp & Hs0 & _ & Hlen & meta_dict & train_df & Hfeat & Hmeta).
  rewrite Hmeta in Hlosses. rewrite lookup_insert_eq in Hlosses.
  injection Hlosses as ->.
  assert (Hmodel : w_model_pt w1 = None).
  { rewrite Hs0; [exact Hnone|].
    apply (no_improving_no_saves losses _ 1); [rewrite length_seq; auto | exact Himp]. }
  destruct (fit_features_stats _ _ _ _ _ _ Hfeat) as [_ Hst].
  assert (Hpf : predict_features (<["losses"%string := MLosses losses]> meta_dict)
                  (features config) (to_dataframe train_data) (to_dataframe test_data)
                = Ok (scale_with train_data (features config) (to_dataframe train_data),
                      scale_with train_data (features config) (to_dataframe test_data))).
  { apply predict_features_stats. intros f Hin. apply stats_of_losses. apply (Hst f Hin). }
  unfold fit_predict. unfold bind at 1. rewrite Hfit.
  unfold predict, bind at 1, load_metadata. rewrite Hmeta.
  unfold bind at 1, lift. rewrite Hpf.
  unfold predict_with_frames, bind at 1. rewrite Hbs. unfold ret.
  unfold bind at 1, with_torch.
  destruct (new_model config (w_torch w1)) as [m g'].
  unfold bind at 1, load_model. cbn [w_model_pt]. rewrite Hmodel.
  eexists. split; [reflexivity|].
  unfold same_disk. cbn. rewrite Hmeta. repeat split; congruence.
Qed.

Lemma fit_predict_without_checkpoint_witness :
  let B := scripted [Ok F64.nan; Ok F64.nan] in
  let w := fresh_world (B := B) 0 0 in
  exists w',
    fit_predict (B := B) ten_stations ten_stations (demo_config 2) w
    = (w', Raise FileNotFoundError) /\
    same_disk (fst (fit (B := B) ten_stations (demo_config 2) w)) w' /\
    w_model_pt w' = None /\ w_metadata_pt w' <> None /\
    w_predictions_nc w' = w_predictions_nc w.
Proof.
  cbv zeta.
  apply (fit_predict_without_checkpoint (B := scripted [Ok F64.nan; Ok F64.nan])
           ten_stations ten_stations (demo_config 2)
           (fresh_world (B := scripted [Ok F64.nan; Ok F64.nan]) 0 0) _
           [F64.nan; F64.nan]).
  - reflexivity.
  - vm_compute. reflexivity.
  - vm_compute. reflexivity.
  - reflexivity.
Defined.

(** ** An empty grid *)

Lemma values_empty_grid (d : Dataset) (c : string) :
  times d = [] \/ stations d = [] -> values d c = [].
Proof.
  unfold values. intros [->| ->]; [reflexivity|].
  induction (times d) as [|t ts IH]; [reflexivity | exact IH].
Qed.

(** X9.  [fit] on a grid without time-steps or without stations: with at
    least one configured feature the first reduction [.min()] is over an
    empty array, so [fit] raises [ValueError] before it trains or writes
    anything. *)
Theorem fit_empty_grid `{B : Backend} (train_data : Dataset) (config : Config) (w : world) :
  times train_data = [] \/ stations train_data = [] ->
  features config <> [] ->
  exists w', fit train_data config w = (w', Raise ValueError) /\ same_disk w w'.
Proof.
  intros Hgrid Hfs. destruct (features config) as [|f fs] eqn:Ef; [contradiction|].
  unfold fit. rewrite Ef. cbn [fit_features]. unfold data_min.
  rewrite (values_empty_grid _ f Hgrid).
  eexists. split; [reflexivity|]. repeat split.
Qed.

Lemma fit_empty_grid_witness :
  let B := scripted [] in
  let no_stations := {| times := [0%Z]; stations := []; var := fun _ _ _ => F64.zero |} in
  exists w',
    fit (B := B) no_stations (demo_config 1) (fresh_world (B := B) 0 0)
    = (w', Raise ValueError) /\
    same_disk (fresh_world (B := B) 0 0) w'.
Proof.
  cbv zeta.
  apply (fit_empty_grid (B := scripted [])
           {| times := [0%Z]; stations := []; var := fun _ _ _ => F64.zero |}
           (demo_config 1) (fresh_world (B := scripted []) 0 0)).
  - right. reflexivity.
  - discriminate.
Defined.

(** ** A constant feature *)

Lemma sub_self (v : spec_float) : F64.is_number v = true -> F64.sub v v = S754_zero false.
Proof.
  destruct v as [s|s| |s m e]; try discriminate; intros _.
  - destruct s; reflexivity.
  - unfold F64.sub, SFsub. rewrite Z.sub_diag. reflexivity.
Qed.

Lemma scale_constant (v x : spec_float) :
  F64.is_number v = true -> x = v \/ x = F64.nan -> scale v v x = F64.nan.
Proof.
  intros Hv [->| ->]; unfold scale; rewrite (sub_self v Hv).
  - reflexivity.
  - destruct v; try discriminate; reflexivity.
Qed.

Lemma SFltb_irrefl (v : spec_float) : SFltb v v = false.
Proof.
  unfold SFltb, SFcompare. destruct v as [s|s| |s m e]; try reflexivity.
  - destruct s; reflexivity.
  - destruct s; rewrite Z.compare_refl, ?Pos.compare_cont_refl, ?Pos.compare_refl;
      try reflexivity.
Qed.

Lemma min2_self (v : spec_float) : F64.min2 v v = v.
Proof. unfold F64.min2, F64.ltb. rewrite SFltb_irrefl. destruct (F64.is_nan v); reflexivity. Qed.

Lemma max2_self (v : spec_float) : F64.max2 v v = v.
Proof. unfold F64.max2, F64.ltb. rewrite SFltb_irrefl. destruct (F64.is_nan v); reflexivity. Qed.

Lemma nanmin_constant (v : spec_float) (l : list spec_float) :
  l <> [] -> List.Forall (eq v) l -> F64.nanmin l = v /\ F64.nanmax l = v.
Proof.
  intros Hne Hall. destruct l as [|x l]; [contradiction|].
  apply Forall_cons_iff in Hall as [<- Hall].
  unfold F64.nanmin, F64.nanmax. cbn [fold_left].
  change (F64.min2 F64.nan v) with v. change (F64.max2 F64.nan v) with v.
  clear Hne. induction Hall as [|y l <- _ IH]; [split; reflexivity|].
  cbn [fold_left]. rewrite min2_self, max2_self. exact IH.
Qed.

Lemma values_constant (d : Dataset) (f : string) (v : spec_float) :
  (forall t s, In t (times d) -> In s (stations d) -> var d f t s = v) ->
  List.Forall (eq v) (values d f).
Proof.
  intros Hc. apply List.Forall_forall. intros x Hx. unfold values in Hx.
  apply in_flat_map in Hx as (t & Ht & Hx). apply in_map_iff in Hx as (s & <- & Hs).
  symmetry. apply Hc; assumption.
Qed.

Lemma set_col_Forall (c : string) (g : spec_float -> spec_float) (P Q : Row -> Prop)
      (df : DataFrame) :
  (forall r, P r ->
             Q {| r_time := r_time r; r_station := r_station r;
                  r_col := fun c' => if String.eqb c' c then g (r_col r c) else r_col r c' |}) ->
  List.Forall P df -> List.Forall Q (set_col c g df).
Proof.
  intros HPQ H. unfold set_col. induction H; cbn [map]; constructor; auto.
Qed.

Lemma fit_features_constant (d : Dataset) (f : string) (v : spec_float) (fs : list string) :
  F64.is_number v = true ->
  List.Forall (eq v) (values d f) ->
  forall (meta0 : gmap string meta_value) (df0 : DataFrame)
         (meta : gmap string meta_value) (df : DataFrame),
    fit_features d fs meta0 df0 = Ok (meta, df) ->
    List.Forall (fun r => r_col r f = v \/ r_col r f = F64.nan) df0 ->
    In f fs \/ List.Forall (fun r => r_col r f = F64.nan) df0 ->
    List.Forall (fun r => r_col r f = F64.nan) df.
Proof.
  intros Hv Hvals.
  induction fs as [|f' fs IH]; intros meta0 df0 meta df H Hinv Hcase.
  - injection H as <- <-. destruct Hcase as [[]|Hnan]. exact Hnan.
  - cbn [fit_features] in H.
    destruct (data_min d f') as [mn|] eqn:Hmn; [|discriminate].
    destruct (data_max d f') as [mx|] eqn:Hmx; [|discriminate].
    cbn in H.
    assert (Hscaled : f = f' ->
              List.Forall (fun r => r_col r f = F64.nan) (set_col f' (scale mn mx) df0)).
    { intros <-.
      assert (Hne : values d f <> []).
      { unfold data_min in Hmn. destruct (values d f); discriminate. }
      destruct (nanmin_constant v _ Hne Hvals) as [Emin Emax].
      apply data_min_value in Hmn. apply data_max_value in Hmx.
      rewrite Hmn, Hmx, Emin, Emax.
      apply (set_col_Forall _ _ (fun r => r_col r f = v \/ r_col r f = F64.nan));
        [|exact Hinv].
      intros r Hr. cbn [r_col]. rewrite String.eqb_refl. apply scale_constant; assumption. }
    apply (IH _ _ _ _ H).
    + destruct (String.eqb_spec f f') as [E|Hne].
      * apply (List.Forall_impl (P := fun r => r_col r f = F64.nan));
          [intros r Hr; right; exact Hr | exact (Hscaled E)].
      * apply (set_col_Forall _ _ (fun r => r_col r f = v \/ r_col r f = F64.nan));
          [|exact Hinv].
        intros r Hr. cbn [r_col]. destruct (String.eqb_spec f f'); [contradiction | exact Hr].
    + destruct (String.eqb_spec f f') as [E|Hne]; [right; exact (Hscaled E)|].
      destruct Hcase as [[E|Hin]|Hnan]; [congruence | left; exact Hin |].
      right. apply (set_col_Forall _ _ (fun r => r_col r f = F64.nan)); [|exact Hnan].
      intros r Hr. cbn [r_col]. destruct (String.eqb_spec f f'); [contradiction | exact Hr].
Qed.

Lemma to_dataframe_length (d : Dataset) :
  length (to_dataframe d) = length (times d) * length (stations d).
Proof.
  unfold to_dataframe. induction (times d) as [|t ts IH]; [reflexivity|].
  cbn [flat_map length]. rewrite length_app, length_map, IH. lia.
Qed.

Lemma fit_features_rows (d : Dataset) (fs : list string) :
  forall (meta0 : gmap string meta_value) (df0 : DataFrame)
         (meta : gmap string meta_value) (df : DataFrame),
    fit_features d fs meta0 df0 = Ok (meta, df) ->
    map r_time df = map r_time df0 /\ map r_station df = map r_station df0.
Proof.
  induction fs as [|f' fs IH]; intros meta0 df0 meta df H.
  - injection H as <- <-. split; reflexivity.
  - cbn [fit_features] in H.
    destruct (data_min d f') as [mn|]; [|discriminate].
    destruct (data_max d f') as [mx|]; [|discriminate].
    cbn in H. destruct (IH _ _ _ _ H) as [Ht Hs]. rewrite Ht, Hs.
    unfold set_col. rewrite !map_map. split; reflexivity.
Qed.

Lemma values_nonempty (d : Dataset) (c : string) :
  times d <> [] -> stations d <> [] -> values d c <> [].
Proof.
  unfold values. destruct (times d) as [|t ts]; [contradiction|].
  destruct (stations d) as [|s ss]; [contradiction|]. discriminate.
Qed.

(** On a grid that is not empty the loop of [fit] returns. *)
Lemma fit_features_ok (d : Dataset) (fs : list string) :
  times d <> [] -> stations d <> [] ->
  forall (meta0 : gmap string meta_value) (df0 : DataFrame),
    exists meta df, fit_features d fs meta0 df0 = Ok (meta, df).
Proof.
  intros Ht Hs. induction fs as [|f fs IH]; intros meta0 df0.
  - exists meta0, df0. reflexivity.
  - cbn [fit_features]. unfold data_min, data_max.
    pose proof (values_nonempty d f Ht Hs) as Hne.
    destruct (values d f) as [|x l]; [contradiction|]. cbn. apply IH.
Qed.

(** X10.  A feature that is constant over the training grid.  Its minimum
    and maximum in the metadata are both that constant, and line 74 divides
    0 by 0: the feature is nan in every row of the scaled training frame,
    which still has one row per grid cell. *)
Theorem constant_feature_becomes_nan (d : Dataset) (fs : list string) (f : string)
        (v : spec_float) :
  F64.is_number v = true ->
  (forall t s, In t (times d) -> In s (stations d) -> var d f t s = v) ->
  In f fs ->
  times d <> [] -> stations d <> [] ->
  exists meta df,
    fit_features d fs ∅ (to_dataframe d) = Ok (meta, df) /\
    meta !! (f +:+ "_min") = Some (MFloat v) /\
    meta !! (f +:+ "_max") = Some (MFloat v) /\
    length df = length (times d) * length (stations d) /\
    List.Forall (fun r => r_col r f = F64.nan) df.
Proof.
  intros Hv Hc Hin Ht Hs.
  destruct (fit_features_ok d fs Ht Hs ∅ (to_dataframe d)) as (meta & df & H).
  exists meta, df. split; [exact H|].
  pose proof (values_constant d f v Hc) as Hvals.
  destruct (fit_features_stats _ _ _ _ _ _ H) as [_ Hst].
  destruct (Hst f Hin) as (_ & _ & Hmin & Hmax).
  destruct (nanmin_constant v _ (values_nonempty d f Ht Hs) Hvals) as [Emin Emax].
  rewrite Emin in Hmin. rewrite Emax in Hmax.
  split; [exact Hmin|]. split; [exact Hmax|]. split.
  - destruct (fit_features_rows _ _ _ _ _ _ H) as [Hrt _].
    apply (f_equal (@length Z)) in Hrt. rewrite !length_map in Hrt.
    rewrite Hrt. apply to_dataframe_length.
  - apply (fit_features_constant d f v fs Hv Hvals _ _ _ _ H); [|left; exact Hin].
    apply List.Forall_forall. intros r Hr. left. unfold to_dataframe in Hr.
    apply in_flat_map in Hr as (t & Ht' & Hr). apply in_map_iff in Hr as (s & <- & Hs').
    cbn. apply Hc; assumption.
Qed.

Lemma constant_feature_becomes_nan_witness :
  exists meta df,
    fit_features flat_feature ["x"%string] ∅ (to_dataframe flat_feature) = Ok (meta, df) /\
    meta !! ("x" +:+ "_min")%string = Some (MFloat (F64.of_Z 3)) /\
    meta !! ("x" +:+ "_max")%string = Some (MFloat (F64.of_Z 3)) /\
    length df = length (times flat_feature) * length (stations flat_feature) /\
    List.Forall (fun r => r_col r "x"%string = F64.nan) df.
Proof.
  apply (constant_feature_becomes_nan flat_feature ["x"%string] "x"%string (F64.of_Z 3)).
  - reflexivity.
  - intros t s _ _. reflexivity.
  - left. reflexivity.
  - discriminate.
  - discriminate.
Defined.

(** ** What [predict] leaves alone *)

Section PredictFootprint.
Context {B : Backend}.

Lemma keeps_numpy_bind {A C : Type} (m : M A) (k : A -> M C) :
  keeps_numpy m -> (forall a, keeps_numpy (k a)) -> keeps_numpy (bind m k).
Proof.
  intros Hm Hk w w' r H. unfold bind in H.
  destruct (m w) as [w1 [a|e]] eqn:E.
  - rewrite (Hk _ _ _ _ H). exact (Hm _ _ _ E).
  - injection H as <- _. exact (Hm _ _ _ E).
Qed.

Lemma keeps_numpy_lift {A : Type} (x : result A) : keeps_numpy (lift x).
Proof. intros w w' r H. injection H as <- _. reflexivity. Qed.

Lemma keeps_numpy_predict_with_frames (test_data : Dataset) (config : Config)
      (train_df test_df : DataFrame) :
  keeps_numpy (predict_with_frames test_data config train_df test_df).
Proof.
  unfold predict_with_frames.
  apply keeps_numpy_bind.
  { intros w w' r H. destruct (batch_size config =? 0)%nat; injection H as <- _; reflexivity. }
  intros _. apply keeps_numpy_bind.
  { intros w w' r H. unfold with_torch in H. destruct (new_model config (w_torch w)).
    injection H as <- _. reflexivity. }
  intros cnp. apply keeps_numpy_bind.
  { intros w w' r H. injection H as <- _. reflexivity. }
  intros ckpt. apply keeps_numpy_bind; [apply keeps_numpy_lift|].
  intros cnp'. apply keeps_numpy_bind; [apply keeps_numpy_lift|].
  intros y_pred. apply keeps_numpy_bind; [apply keeps_numpy_lift|].
  intros nc w w' r H. injection H as <- _. reflexivity.
Qed.

(** X11.  [predict] reads the files of [fit] and never writes them:
    whatever its outcome, [model.pt] and [metadata.pt] are as before and
    numpy's generator is untouched; it writes [predictions.nc], and logs
    that, exactly when it returns. *)
Theorem predict_keeps_fit_files (test_data train_data : Dataset) (config : Config)
        (w : world) :
  let '(w', r) := predict test_data train_data config w in
  w_model_pt w' = w_model_pt w /\
  w_metadata_pt w' = w_metadata_pt w /\
  w_numpy w' = w_numpy w /\
  w_log w' = w_log w ++ (match r with Ok _ => [Saved PredictionsNc] | Raise _ => [] end) /\
  (match r with Ok _ => True | Raise _ => w_predictions_nc w' = w_predictions_nc w end).
Proof.
  destruct (predict test_data train_data config w) as [w' r] eqn:H.
  assert (Hnp : w_numpy w' = w_numpy w).
  { revert H. unfold predict. apply keeps_numpy_bind.
    - intros w0 w0' r0 H0. injection H0 as <- _. reflexivity.
    - intros meta. apply keeps_numpy_bind; [apply keeps_numpy_lift|].
      intros [train_df test_df]. apply keeps_numpy_predict_with_frames. }
  apply predict_spec in H. destruct r as [[]|e].
  - destruct H as (h1 & h2 & _ & h4 & _ & _). rewrite h1. repeat split; assumption.
  - destruct H as (d1 & d2 & d3 & d4). rewrite app_nil_r. repeat split; assumption.
Qed.
End PredictFootprint.

(** ** The datasets *)

Lemma unique_In (l : list Z) (x : Z) : In x (unique l) <-> In x l.
Proof.
  induction l as [|y l IH]; [reflexivity|].
  cbn [unique In]. rewrite filter_In, IH, negb_true_iff, Z.eqb_neq.
  destruct (Z.eq_dec y x); [tauto|]. split; [tauto|]. intros [?|?]; [tauto|].
  right. split; [assumption | congruence].
Qed.

Lemma unique_NoDup (l : list Z) : List.NoDup (unique l).
Proof.
  induction l as [|y l IH]; [constructor|].
  cbn [unique]. constructor.
  - rewrite filter_In, negb_true_iff, Z.eqb_neq. tauto.
  - apply List.NoDup_filter. exact IH.
Qed.

Lemma filter_unique (t : Z) (l : list Z) :
  List.filter (fun y => negb (y =? t)%Z) (unique l)
  = unique (List.filter (fun y => negb (y =? t)%Z) l).
Proof.
  induction l as [|x l IH]; [reflexivity|].
  cbn [unique List.filter].
  destruct (Z.eqb_spec x t) as [->|Hne]; cbn [negb].
  - rewrite <- IH. clear IH. induction (unique l) as [|y u IHu]; [reflexivity|].
    cbn [List.filter]. destruct (negb (y =? t)%Z) eqn:E; cbn [List.filter]; rewrite ?E, IHu;
      reflexivity.
  - cbn [unique]. f_equal. rewrite <- IH. clear IH.
    induction (unique l) as [|y u IHu]; [reflexivity|].
    cbn [List.filter].
    destruct (negb (y =? x)%Z) eqn:E1, (negb (y =? t)%Z) eqn:E2; cbn [List.filter];
      rewrite ?E1, ?E2, IHu; reflexivity.
Qed.

Lemma filter_all (t : Z) (l : list Z) :
  ~ In t l -> List.filter (fun y => negb (y =? t)%Z) l = l.
Proof.
  induction l as [|x l IH]; intros Hn; [reflexivity|].
  cbn [List.filter]. destruct (Z.eqb_spec x t) as [->|Hne].
  - exfalso. apply Hn. left. reflexivity.
  - cbn. f_equal. apply IH. intros Hin. apply Hn. right. exact Hin.
Qed.

Lemma filter_repeat_app (t : Z) (n : nat) (l : list Z) :
  List.filter (fun y => negb (y =? t)%Z) (repeat t n ++ l)
  = List.filter (fun y => negb (y =? t)%Z) l.
Proof.
  induction n as [|n IH]; [reflexivity|].
  cbn [repeat app List.filter]. rewrite Z.eqb_refl. exact IH.
Qed.

Lemma unique_blocks (ts : list Z) (n : nat) :
  List.NoDup ts ->
  unique (flat_map (fun t => repeat t (S n)) ts) = ts.
Proof.
  induction 1 as [|t ts Hnotin Hnd IH]; [reflexivity|].
  cbn [flat_map]. replace (repeat t (S n)) with (t :: repeat t n) by reflexivity.
  cbn [app unique]. f_equal.
  rewrite filter_unique, filter_repeat_app, <- filter_unique, IH.
  apply filter_all. exact Hnotin.
Qed.

Lemma to_dataframe_times (d : Dataset) :
  map r_time (to_dataframe d)
  = flat_map (fun t => repeat t (length (stations d))) (times d).
Proof.
  unfold to_dataframe. induction (times d) as [|t ts IH]; [reflexivity|].
  cbn [flat_map]. rewrite map_app, IH. f_equal.
  rewrite map_map. cbn [r_time]. clear IH.
  induction (stations d) as [|s ss IHs]; [reflexivity|].
  cbn. f_equal. exact IHs.
Qed.

Lemma set_col_times (c : string) (g : spec_float -> spec_float) (df : DataFrame) :
  map r_time (set_col c g df) = map r_time df.
Proof. unfold set_col. rewrite map_map. reflexivity. Qed.

Lemma scale_with_times (d : Dataset) (fs : list string) (df : DataFrame) :
  map r_time (scale_with d fs df) = map r_time df.
Proof.
  unfold scale_with. revert df. induction fs as [|f fs IH]; intros df; [reflexivity|].
  cbn [fold_left]. rewrite IH. apply set_col_times.
Qed.

Lemma fit_features_times (d : Dataset) (fs : list string) :
  forall (meta0 : gmap string meta_value) (df0 : DataFrame)
         (meta : gmap string meta_value) (df : DataFrame),
    fit_features d fs meta0 df0 = Ok (meta, df) -> map r_time df = map r_time df0.
Proof.
  induction fs as [|f' fs IH]; intros meta0 df0 meta df H.
  - injection H as <- <-. reflexivity.
  - cbn [fit_features] in H.
    destruct (data_min d f') as [mn|]; [|discriminate].
    destruct (data_max d f') as [mx|]; [|discriminate].
    cbn in H. rewrite (IH _ _ _ _ H). apply set_col_times.
Qed.

(** X12.  The datasets have one item per time coordinate: on a grid with
    distinct time coordinates and at least one station, the time-steps of
    [fit]'s dataset (built from the scaled frame) and of [predict]'s dataset
    are the time coordinates of the training data, in order. *)
Theorem dataset_length (train_data stats : Dataset) (config : Config) :
  List.NoDup (times train_data) ->
  stations train_data <> [] ->
  (forall meta train_df,
      fit_features train_data (features config) ∅ (to_dataframe train_data)
      = Ok (meta, train_df) ->
      fit_ts train_df = times train_data) /\
  predict_ts (scale_with stats (features config) (to_dataframe train_data))
  = times train_data.
Proof.
  intros Hnd Hst.
  assert (Hu : unique (map r_time (to_dataframe train_data)) = times train_data).
  { rewrite to_dataframe_times.
    destruct (stations train_data) as [|s ss]; [contradiction|].
    apply unique_blocks. exact Hnd. }
  split.
  - intros meta train_df Hfit.
    unfold fit_ts. rewrite (fit_features_times _ _ _ _ _ _ Hfit). exact Hu.
  - unfold predict_ts. rewrite scale_with_times. exact Hu.
Qed.

Lemma dataset_length_witness :
  (forall meta train_df,
      fit_features ten_stations (features (demo_config 1)) ∅ (to_dataframe ten_stations)
      = Ok (meta, train_df) ->
      fit_ts train_df = times ten_stations) /\
  predict_ts (scale_with ten_stations (features (demo_config 1)) (to_dataframe ten_stations))
  = times ten_stations.
Proof.
  apply (dataset_length ten_stations ten_stations (demo_config 1)).
  - repeat constructor. intros [].
  - discriminate.
Defined.

(** *** The rows of the items *)

Lemma partition_by_key (ts : list Z) :
  List.NoDup ts ->
  forall df : DataFrame,
    (forall r, In r df -> In (r_time r) ts) ->
    Permutation (flat_map (fun t => at_time t df) ts) df.
Proof.
  intros Hnd df. induction df as [|r df IH]; intros Hin.
  - clear Hin Hnd. induction ts as [|t ts IHt]; [constructor | exact IHt].
  - assert (IH' : Permutation (flat_map (fun t => at_time t df) ts) df).
    { apply IH. intros r' Hr'. apply Hin. right. exact Hr'. }
    apply Permutation_trans with (r :: flat_map (fun t => at_time t df) ts);
      [|apply perm_skip; exact IH'].
    assert (Hr : In (r_time r) ts) by (apply Hin; left; reflexivity).
    clear IH IH' Hin. revert Hr. induction Hnd as [|t ts Hnotin Hnd IHt]; intros Hr.
    + destruct Hr.
    + cbn [flat_map]. unfold at_time at 1 3. cbn [List.filter].
      destruct (Z.eqb_spec (r_time r) t) as [E|Hne].
      * cbn [app]. apply perm_skip. apply Permutation_app_head.
        assert (Hsame : forall ts', ~ In t ts' ->
                  flat_map (fun t0 => at_time t0 (r :: df)) ts'
                  = flat_map (fun t0 => at_time t0 df) ts').
        { intros ts' Hn. induction ts' as [|t' ts' IH']; [reflexivity|].
          cbn [flat_map]. unfold at_time at 1 3. cbn [List.filter].
          destruct (Z.eqb_spec (r_time r) t') as [E'|_].
          - exfalso. apply Hn. left. congruence.
          - f_equal. apply IH'. intros Hin'. apply Hn. right. exact Hin'. }
        rewrite (Hsame ts Hnotin). apply Permutation_refl.
      * destruct Hr as [E|Hr]; [congruence|].
        apply Permutation_trans
          with (List.filter (fun r0 => (r_time r0 =? t)%Z) df
                  ++ r :: flat_map (fun t0 => at_time t0 df) ts).
        -- apply Permutation_app_head. apply IHt. exact Hr.
        -- apply Permutation_sym. apply Permutation_middle.
Qed.

Lemma rmapM_nth_seq {A C : Type} (g : A -> C) (pre l : list A) :
  rmapM (fun i => match nth_error (pre ++ l) i with
                  | Some a => Ok (g a)
                  | None => Raise IndexError
                  end) (seq (length pre) (length l))
  = Ok (map g l).
Proof.
  revert pre. induction l as [|a l IH]; intros pre; [reflexivity|].
  cbn [length seq rmapM map].
  rewrite nth_error_app2 by lia. rewrite Nat.sub_diag. cbn [nth_error].
  specialize (IH (pre ++ [a])).
  rewrite <- app_assoc in IH. cbn [app] in IH.
  rewrite length_app in IH. cbn [length] in IH.
  replace (length pre + 1)%nat with (S (length pre)) in IH by lia.
  rewrite IH. reflexivity.
Qed.

Lemma predict_getitem_nth (config : Config) (train_df test_df : DataFrame) (idx : nat) :
  predict_getitem config train_df test_df idx
  = match nth_error (predict_ts train_df) idx with
    | Some t => Ok (predict_item config train_df test_df t)
    | None => Raise IndexError
    end.
Proof. unfold predict_getitem. destruct (nth_error _ idx); reflexivity. Qed.

Lemma predict_getitem_all (config : Config) (train_df test_df : DataFrame) :
  rmapM (predict_getitem config train_df test_df) (seq 0 (length (predict_ts train_df)))
  = Ok (map (predict_item config train_df test_df) (predict_ts train_df)).
Proof.
  pose proof (rmapM_nth_seq (predict_item config train_df test_df) [] (predict_ts train_df))
    as H.
  cbn [app length] in H. rewrite <- H. clear H.
  induction (seq 0 (length (predict_ts train_df))) as [|i l IH]; [reflexivity|].
  cbn [rmapM]. rewrite predict_getitem_nth, IH. reflexivity.
Qed.

(** X13.  What [predict]'s dataset holds.  Its items, in order, are the
    time-steps of the training frame; an index past the end raises
    [IndexError]; every training row is in the context of exactly one item;
    a test row is predicted exactly when its time-step occurs in the training
    frame (test rows at other time-steps are dropped). *)
Theorem predict_dataset_partition (config : Config) (train_df test_df : DataFrame) :
  rmapM (predict_getitem config train_df test_df) (seq 0 (length (predict_ts train_df)))
  = Ok (map (predict_item config train_df test_df) (predict_ts train_df)) /\
  (forall idx, length (predict_ts train_df) <= idx ->
               predict_getitem config train_df test_df idx = Raise IndexError) /\
  Permutation (flat_map (fun t => at_time t train_df) (predict_ts train_df)) train_df /\
  (forall r, In r (flat_map (fun t => at_time t test_df) (predict_ts train_df)) <->
             In r test_df /\ In (r_time r) (map r_time train_df)).
Proof.
  split; [|split; [|split]].
  - apply predict_getitem_all.
  - intros idx Hidx. rewrite predict_getitem_nth.
    apply nth_error_None in Hidx. rewrite Hidx. reflexivity.
  - apply partition_by_key; [apply unique_NoDup|].
    intros r Hr. unfold predict_ts. apply unique_In. apply in_map. exact Hr.
  - intros r. rewrite in_flat_map. unfold at_time, predict_ts. split.
    + intros (t & Ht & Hr). apply filter_In in Hr as [Hr Et].
      apply Z.eqb_eq in Et. subst t. apply (proj1 (unique_In _ _)) in Ht. split; assumption.
    + intros [Hr Ht]. exists (r_time r). split; [apply unique_In; exact Ht|].
      apply filter_In. split; [exact Hr | apply Z.eqb_refl].
Qed.

(** *** Batches *)

Lemma chunks_aux_spec {A : Type} (b : nat) :
  b <> 0 ->
  forall (fuel : nat) (l : list A),
    length l <= fuel ->
    concat (chunks_aux fuel b l) = l /\
    List.Forall (fun c => 1 <= length c <= b) (chunks_aux fuel b l) /\
    length (chunks_aux fuel b l) = (length l + b - 1) / b.
Proof.
  intros Hb. induction fuel as [|fuel IH]; intros l Hl.
  - destruct l; [|cbn in Hl; lia]. cbn. repeat split; [constructor|].
    symmetry. apply Nat.div_small. lia.
  - destruct l as [|a l].
    + cbn. repeat split; [constructor|]. symmetry. apply Nat.div_small. lia.
    + cbn [chunks_aux].
      assert (Hskip : length (skipn b (a :: l)) <= fuel).
      { rewrite length_skipn. cbn [length] in *. lia. }
      destruct (IH (skipn b (a :: l)) Hskip) as (Hc & Hs & Hn).
      split; [cbn [concat]; rewrite Hc; apply firstn_skipn|].
      split.
      * constructor; [|exact Hs]. rewrite length_firstn. cbn [length]. lia.
      * cbn [length]. rewrite Hn, length_skipn. cbn [length].
        destruct (le_lt_dec b (S (length l))) as [Hle|Hlt].
        -- replace (S (length l) + b - 1) with ((S (length l) - b + b - 1) + 1 * b) by lia.
           rewrite Nat.div_add by exact Hb. lia.
        -- replace (S (length l) - b) with 0 by lia.
           rewrite (Nat.div_small (0 + b - 1) b) by lia.
           apply (Nat.div_unique _ _ 1 (length l)); lia.
Qed.

Lemma rmapM_concat {A C : Type} (f : A -> result C) (ls : list (list A)) (r : list C) :
  rmapM f (concat ls) = Ok r ->
  exists rs, rmapM (rmapM f) ls = Ok rs /\ concat rs = r /\
             List.Forall2 (fun a c => length c = length a) ls rs.
Proof.
  revert r. induction ls as [|l ls IH]; intros r H.
  - cbn in H. injection H as <-. exists []. repeat split. constructor.
  - cbn [concat] in H. rewrite rmapM_app in H.
    destruct (rmapM f l) as [x|] eqn:Hx; [|discriminate].
    destruct (rmapM f (concat ls)) as [y|] eqn:Hy; [|discriminate].
    injection H as <-. destruct (IH y eq_refl) as (rs & Hrs & Hc & Hf).
    exists (x :: rs). cbn [rmapM]. rewrite Hx, Hrs. cbn [concat]. rewrite Hc.
    repeat split. constructor; [|exact Hf]. apply (rmapM_length _ _ _ Hx).
Qed.

(** X14.  The loop of [predict] visits every time-step once, in order: with
    a positive batch size the batches of the loader, concatenated, are the
    items of all time-steps of the training frame in order; every batch has
    between 1 and [batch_size] items and there are [ceil(n / batch_size)]
    batches. *)
Theorem predict_visits_every_time_step (config : Config) (train_df test_df : DataFrame) :
  batch_size config <> 0 ->
  let n := length (predict_ts train_df) in
  let batches := chunks (batch_size config) (seq 0 n) in
  exists items,
    rmapM (rmapM (predict_getitem config train_df test_df)) batches = Ok items /\
    concat items = map (predict_item config train_df test_df) (predict_ts train_df) /\
    List.Forall (fun its => 1 <= length its <= batch_size config) items /\
    length items = (n + batch_size config - 1) / batch_size config.
Proof.
  intros Hb n batches.
  destruct (chunks_aux_spec (batch_size config) Hb (length (seq 0 n)) (seq 0 n) (le_n _))
    as (Hc & Hs & Hn).
  fold (chunks (batch_size config) (seq 0 n)) in Hc, Hs, Hn. fold batches in Hc, Hs, Hn.
  pose proof (predict_getitem_all config train_df test_df) as Hall.
  fold n in Hall. rewrite <- Hc in Hall.
  destruct (rmapM_concat _ _ _ Hall) as (items & Hitems & Hcat & Hlen).
  exists items. split; [exact Hitems|]. split; [exact Hcat|]. split.
  - clear -Hs Hlen. induction Hlen as [|a c ls rs Hac Hlen IH]; [constructor|].
    inversion Hs; subst. constructor; [lia | apply IH; assumption].
  - rewrite <- (List.Forall2_length Hlen), Hn, length_seq. reflexivity.
Qed.

Lemma predict_visits_every_time_step_witness :
  let config := demo_config 1 in
  let train_df := to_dataframe ten_stations in
  let test_df := to_dataframe ten_stations in
  let n := length (predict_ts train_df) in
  let batches := chunks (batch_size config) (seq 0 n) in
  exists items,
    rmapM (rmapM (predict_getitem config train_df test_df)) batches = Ok items /\
    concat items = map (predict_item config train_df test_df) (predict_ts train_df) /\
    List.Forall (fun its => 1 <= length its <= batch_size config) items /\
    length items = (n + batch_size config - 1) / batch_size config.
Proof.
  cbv zeta.
  apply (predict_visits_every_time_step (demo_config 1) (to_dataframe ten_stations)
           (to_dataframe ten_stations)).
  cbn. lia.
Defined.

(** ** The random-forest baseline: time-steps and missing targets *)

Lemma existsb_eqb_In (ts : Z) (l : list Z) : existsb (Z.eqb ts) l = true <-> In ts l.
Proof.
  rewrite existsb_exists. split.
  - intros (x & Hx & E). apply Z.eqb_eq in E. subst x. exact Hx.
  - intros H. exists ts. split; [exact H | apply Z.eqb_refl].
Qed.

Lemma sel_ok `{K : Sklearn} (d : Dataset) (ts : Z) :
  In ts (times d) ->
  RF.sel d ts = Ok (map (fun s => {| r_time := ts; r_station := s;
                                     r_col := fun c => var d c ts s |}) (stations d)).
Proof.
  intros H. unfold RF.sel. apply existsb_eqb_In in H. rewrite H. reflexivity.
Qed.

Lemma sel_missing `{K : Sklearn} (d : Dataset) (ts : Z) :
  ~ In ts (times d) -> RF.sel d ts = Raise KeyError.
Proof.
  intros H. unfold RF.sel.
  destruct (existsb (Z.eqb ts) (times d)) eqn:E; [|reflexivity].
  apply existsb_eqb_In in E. contradiction.
Qed.

(** X15.  A training time-step that the test data lack: [test_data.sel]
    is outside the [try], so [train_fn] raises [KeyError] and [fit_predict]
    does not return. *)
Theorem rf_missing_test_time `{K : Sklearn} (train_data test_data : Dataset) (config : Config)
        (ts : Z) :
  In ts (times train_data) ->
  ~ In ts (times test_data) ->
  RF.train_fn train_data test_data config ts = Raise KeyError /\
  exists e, RF.fit_predict train_data test_data config = Raise e.
Proof.
  intros Htr Hte.
  assert (Hfn : RF.train_fn train_data test_data config ts = Raise KeyError).
  { unfold RF.train_fn. rewrite (sel_ok _ _ Htr). cbn [mbind result_bind].
    rewrite (sel_missing _ _ Hte). reflexivity. }
  split; [exact Hfn|].
  unfold RF.fit_predict.
  destruct (rmapM_raise _ _ ts KeyError Htr Hfn) as [e' ->]. exists e'. reflexivity.
Qed.

Lemma rf_missing_test_time_witness :
  RF.train_fn (K := sklearn_raising ValueError) later_step all_missing (demo_config 0) 1
  = Raise KeyError /\
  exists e, RF.fit_predict (K := sklearn_raising ValueError) later_step all_missing
                           (demo_config 0) = Raise e.
Proof.
  apply (rf_missing_test_time (K := sklearn_raising ValueError) later_step all_missing
           (demo_config 0) 1).
  - left. reflexivity.
  - intros [H|[]]. discriminate H.
Defined.

Lemma rmapM_ok_map {A C : Type} (f : A -> result C) (g : A -> C) (l : list A) :
  (forall a, In a l -> f a = Ok (g a)) -> rmapM f l = Ok (map g l).
Proof.
  induction l as [|a l IH]; intros H; [reflexivity|].
  cbn [rmapM map]. rewrite (H a (or_introl eq_refl)).
  rewrite IH by (intros a' Ha'; apply H; right; exact Ha'). reflexivity.
Qed.

Lemma dropna_all_missing (c : string) (df : DataFrame) :
  List.Forall (fun r => F64.is_nan (r_col r c) = true) df -> dropna c df = [].
Proof.
  induction 1 as [|r df Hr _ IH]; [reflexivity|].
  unfold dropna in *. cbn [List.filter]. rewrite Hr. exact IH.
Qed.

(** X16.  Training data without a single target.  When every target of the
    training data is missing, every time-step fits on no rows; if the forest
    rejects that with [ValueError] and the test data have all training
    time-steps, [fit_predict] assigns a prediction that is nan everywhere:
    one row per training time-step, one entry per test station. *)
Theorem rf_all_targets_missing `{K : Sklearn} (train_data test_data : Dataset)
        (config : Config) :
  (forall t s, In t (times train_data) -> In s (stations train_data) ->
               F64.is_nan (var train_data (target config) t s) = true) ->
  rf_fit config [] [] = Raise ValueError ->
  incl (times train_data) (times test_data) ->
  RF.fit_predict train_data test_data config
  = rf_assign test_data (target config +:+ "_pred")
              (map (fun _ => repeat F64.nan (length (stations test_data)))
                   (times train_data)).
Proof.
  intros Hnan Hfit Hincl. unfold RF.fit_predict.
  rewrite (rmapM_ok_map _ (fun _ => repeat F64.nan (length (stations test_data)))).
  - reflexivity.
  - intros ts Hts. unfold RF.train_fn.
    rewrite (sel_ok _ _ Hts). cbn [mbind result_bind].
    rewrite (sel_ok _ _ (Hincl ts Hts)). cbn [mbind result_bind].
    rewrite dropna_all_missing.
    + cbn [map]. rewrite Hfit. cbn [is_ValueError].
      rewrite !length_map, nan_sentinel. reflexivity.
    + apply List.Forall_forall. intros r Hr. apply in_map_iff in Hr as (s & <- & Hs).
      cbn [r_col]. apply Hnan; assumption.
Qed.

Lemma rf_all_targets_missing_witness :
  RF.fit_predict (K := sklearn_raising ValueError) all_missing all_missing (demo_config 0)
  = rf_assign (Sklearn := sklearn_raising ValueError) all_missing
              (target (demo_config 0) +:+ "_pred")
              (map (fun _ => repeat F64.nan (length (stations all_missing)))
                   (times all_missing)).
Proof.
  apply (rf_all_targets_missing (K := sklearn_raising ValueError) all_missing all_missing
           (demo_config 0)).
  - intros t s _ _. reflexivity.
  - reflexivity.
  - intros t Ht. exact Ht.
Defined.

(** ** The random-forest baseline: one model per time-step *)

Lemma sel_local `{K : Sklearn} (d d' : Dataset) (ts : Z) :
  (In ts (times d) <-> In ts (times d')) ->
  stations d = stations d' ->
  (forall c s, var d c ts s = var d' c ts s) ->
  RF.sel d ts = RF.sel d' ts.
Proof.
  intros Ht Hs Hv. unfold RF.sel.
  assert (E : existsb (Z.eqb ts) (times d) = existsb (Z.eqb ts) (times d')).
  { destruct (existsb (Z.eqb ts) (times d)) eqn:E1, (existsb (Z.eqb ts) (times d')) eqn:E2;
      try reflexivity.
    - apply existsb_eqb_In, Ht, existsb_eqb_In in E1. congruence.
    - apply existsb_eqb_In, Ht, existsb_eqb_In in E2. congruence. }
  rewrite E, Hs. destruct (existsb (Z.eqb ts) (times d')); [|reflexivity].
  f_equal. apply map_ext. intros s. f_equal.
  apply functional_extensionality. intros c. apply Hv.
Qed.

(** X17.  The model of a time-step sees the data of that time-step only:
    [train_fn] gives the same outcome on two pairs of datasets that have the
    same stations and agree at this time-step, whatever they hold at other
    time-steps. *)
Theorem rf_time_step_locality `{K : Sklearn} (train_data train_data' test_data test_data' : Dataset)
        (config : Config) (ts : Z) :
  (In ts (times train_data) <-> In ts (times train_data')) ->
  stations train_data = stations train_data' ->
  (forall c s, var train_data c ts s = var train_data' c ts s) ->
  (In ts (times test_data) <-> In ts (times test_data')) ->
  stations test_data = stations test_data' ->
  (forall c s, var test_data c ts s = var test_data' c ts s) ->
  RF.train_fn train_data test_data config ts = RF.train_fn train_data' test_data' config ts.
Proof.
  intros Ht Hs Hv Ht' Hs' Hv'. unfold RF.train_fn.
  rewrite (sel_local train_data train_data' ts Ht Hs Hv).
  rewrite (sel_local test_data test_data' ts Ht' Hs' Hv'). reflexivity.
Qed.

Lemma rf_time_step_locality_witness :
  RF.train_fn (K := sklearn_raising ValueError) all_missing all_missing (demo_config 0) 0
  = RF.train_fn (K := sklearn_raising ValueError) two_steps two_steps (demo_config 0) 0.
Proof.
  apply (rf_time_step_locality (K := sklearn_raising ValueError)
           all_missing two_steps all_missing two_steps (demo_config 0) 0).
  - cbn. tauto.
  - reflexivity.
  - intros c s. reflexivity.
  - cbn. tauto.
  - reflexivity.
  - intros c s. reflexivity.
Defined.

(** ** What [fit] prints and what the metadata hold *)

Lemma printed_app (l1 l2 : list event) : printed (l1 ++ l2) = printed l1 ++ printed l2.
Proof. unfold printed. apply flat_map_app. Qed.

Lemma printed_epoch_events (ls : list spec_float) :
  forall (k : nat) (best : spec_float),
    printed (epoch_events (seq k (length ls)) ls best) = combine (seq (k + 1) (length ls)) ls.
Proof.
  induction ls as [|l ls IH]; intros k best; [reflexivity|].
  cbn [length seq epoch_events]. rewrite !printed_app, (IH (S k)).
  replace (S k + 1) with (S (k + 1)) by lia.
  destruct (F64.ltb l best); reflexivity.
Qed.

(** X18.  One line per epoch, with the loss that the metadata keep: a
    [fit] that returns has printed the epochs 1, ..., [epochs] in order, the
    k-th line with the k-th loss of the curve saved in [metadata.pt]. *)
Theorem fit_prints_every_epoch `{B : Backend} (train_data : Dataset) (config : Config)
        (w w' : world) :
  w_log w = [] ->
  fit train_data config w = (w', Ok tt) ->
  exists meta losses,
    w_metadata_pt w' = Some meta /\
    meta !! "losses"%string = Some (MLosses losses) /\
    printed (w_log w') = combine (seq 1 (epochs config)) losses /\
    map fst (printed (w_log w')) = seq 1 (epochs config).
Proof.
  intros Hempty H.
  apply fit_spec in H as (ls & Hlog & _ & _ & _ & Hlen & meta_dict & train_df & _ & Hmeta).
  exists (<["losses"%string := MLosses ls]> meta_dict), ls.
  split; [exact Hmeta|]. split; [apply lookup_insert_eq|].
  assert (Hp : printed (w_log w') = combine (seq 1 (epochs config)) ls).
  { rewrite Hlog, Hempty. cbn [app]. rewrite printed_app. cbn [printed flat_map app].
    rewrite app_nil_r. rewrite <- Hlen. apply (printed_epoch_events ls 0). }
  split; [exact Hp|].
  rewrite Hp. rewrite <- Hlen. clear. generalize 1.
  induction ls as [|l ls IH]; intros k; [reflexivity|].
  cbn. f_equal. apply IH.
Qed.

Lemma fit_prints_every_epoch_witness :
  let w' := fst (fit (B := curve_5_3_4_2) ten_stations (demo_config 4)
                     (fresh_world (B := curve_5_3_4_2) 0 0)) in
  exists meta losses,
    w_metadata_pt w' = Some meta /\
    meta !! "losses"%string = Some (MLosses losses) /\
    printed (w_log w') = combine (seq 1 (epochs (demo_config 4))) losses /\
    map fst (printed (w_log w')) = seq 1 (epochs (demo_config 4)).
Proof.
  cbv zeta.
  apply (fit_prints_every_epoch (B := curve_5_3_4_2) ten_stations (demo_config 4)
           (fresh_world (B := curve_5_3_4_2) 0 0)).
  - reflexivity.
  - vm_compute. reflexivity.
Defined.

(** X19.  The keys of the metadata: after a [fit] that returns,
    [metadata.pt] holds the key "losses" and the keys [f_min], [f_max] of
    the configured features [f], and no other key. *)
Theorem metadata_keys `{B : Backend} (train_data : Dataset) (config : Config)
        (w w' : world) :
  fit train_data config w = (w', Ok tt) ->
  exists meta,
    w_metadata_pt w' = Some meta /\
    forall k, meta !! k <> None <->
              k = "losses"%string \/
              exists f, In f (features config) /\ (k = f +:+ "_min" \/ k = f +:+ "_max").
Proof.
  intros H.
  apply fit_spec in H as (ls & _ & _ & _ & _ & _ & meta_dict & train_df & Hfeat & Hmeta).
  exists (<["losses"%string := MLosses ls]> meta_dict). split; [exact Hmeta|].
  destruct (fit_features_stats _ _ _ _ _ _ Hfeat) as [_ Hst].
  intros k. split.
  - intros Hk. destruct (string_dec k "losses") as [->|Hne]; [left; reflexivity|]. right.
    rewrite lookup_insert_ne in Hk by congruence.
    assert (Hdec : forall fs, (exists f, In f fs /\ (k = f +:+ "_min" \/ k = f +:+ "_max")) \/
                              (forall f, In f fs -> k <> f +:+ "_min" /\ k <> f +:+ "_max")).
    { induction fs as [|f fs [(f' & Hin & Hf')|IH]].
      - right. intros f [].
      - left. exists f'. split; [right; exact Hin | exact Hf'].
      - destruct (string_dec k (f +:+ "_min")) as [E|E1];
          [left; exists f; split; [left; reflexivity | left; exact E]|].
        destruct (string_dec k (f +:+ "_max")) as [E|E2];
          [left; exists f; split; [left; reflexivity | right; exact E]|].
        right. intros f' [<-|Hin]; [split; assumption | apply IH; exact Hin]. }
    destruct (Hdec (features config)) as [Hex|Hnone]; [exact Hex|].
    exfalso. apply Hk. rewrite (fit_features_keys _ _ _ _ _ _ k Hfeat Hnone).
    apply lookup_empty.
  - intros [->|(f & Hin & [->| ->])].
    + rewrite lookup_insert_eq. discriminate.
    + destruct (Hst f Hin) as (_ & _ & Hs). apply (stats_of_losses _ _ _ ls) in Hs.
      destruct Hs as [Hs _]. rewrite Hs. discriminate.
    + destruct (Hst f Hin) as (_ & _ & Hs). apply (stats_of_losses _ _ _ ls) in Hs.
      destruct Hs as [_ Hs]. rewrite Hs. discriminate.
Qed.

Lemma metadata_keys_witness :
  let w' := fst (fit (B := curve_5_3_4_2) ten_stations (demo_config 4)
                     (fresh_world (B := curve_5_3_4_2) 0 0)) in
  exists meta,
    w_metadata_pt w' = Some meta /\
    forall k, meta !! k <> None <->
              k = "losses"%string \/
              exists f, In f (features (demo_config 4)) /\
                        (k = f +:+ "_min" \/ k = f +:+ "_max").
Proof.
  cbv zeta.
  apply (metadata_keys (B := curve_5_3_4_2) ten_stations (demo_config 4)
           (fresh_world (B := curve_5_3_4_2) 0 0)).
  vm_compute. reflexivity.
Defined.

(** ** Slices out of range *)

(** X20.  Lines 92-95 with a number of context points outside [0, n]: the
    slices clip.  With [num_context >= n] the target is empty and the
    context is the whole time-step; with [num_context <= -n] it is the other
    way round; a negative [num_context] above [-n] counts from the end, so
    the context has [n + num_context] points and the target [-num_context]. *)
Theorem split_clipping `{B : Backend} (num_context : Z) (X y : tensor) (idx : list nat) :
  length y = length X ->
  Permutation idx (seq 0 (length X)) ->
  exists X_context y_context X_target y_target,
    split num_context X y idx = Ok (X_context, y_context, X_target, y_target) /\
    ((Z.of_nat (length X) <= num_context)%Z ->
     X_target = [] /\ y_target = [] /\ Permutation X_context X /\ Permutation y_context y) /\
    ((num_context <= - Z.of_nat (length X))%Z ->
     X_context = [] /\ y_context = [] /\ Permutation X_target X /\ Permutation y_target y) /\
    ((- Z.of_nat (length X) < num_context < 0)%Z ->
     Z.of_nat (length X_context) = (Z.of_nat (length X) + num_context)%Z /\
     Z.of_nat (length X_target) = (- num_context)%Z).
Proof.
  intros Hlen Hp.
  destruct (split_spec num_context X y idx Hlen Hp)
    as (Xc & yc & Xt & yt & Hs & H1 & H2 & H3 & H4 & HpX & Hpy).
  exists Xc, yc, Xt, yt. split; [exact Hs|].
  unfold slice_bound in *. split; [|split].
  - intros Hk. destruct (num_context <? 0)%Z eqn:E; [lia|].
    assert (length Xt = 0) by lia. assert (length yt = 0) by lia.
    destruct Xt; [|discriminate]. destruct yt; [|discriminate].
    rewrite !app_nil_r in *. repeat split; assumption.
  - intros Hk. destruct (num_context <? 0)%Z eqn:E.
    + assert (length Xc = 0) by lia. assert (length yc = 0) by lia.
      destruct Xc; [|discriminate]. destruct yc; [|discriminate].
      repeat split; assumption.
    + assert (length Xc = 0) by lia. assert (length yc = 0) by lia.
      destruct Xc; [|discriminate]. destruct yc; [|discriminate].
      repeat split; assumption.
  - intros Hk. destruct (num_context <? 0)%Z eqn:E; lia.
Qed.

Lemma split_clipping_witness :
  exists X_context y_context X_target y_target,
    split (-1) [[F64.zero]; [F64.nan]] [[F64.zero]; [F64.nan]] [1; 0]
    = Ok (X_context, y_context, X_target, y_target) /\
    ((Z.of_nat (length [[F64.zero]; [F64.nan]]) <= -1)%Z ->
     X_target = [] /\ y_target = [] /\
     Permutation X_context [[F64.zero]; [F64.nan]] /\
     Permutation y_context [[F64.zero]; [F64.nan]]) /\
    ((-1 <= - Z.of_nat (length [[F64.zero]; [F64.nan]]))%Z ->
     X_context = [] /\ y_context = [] /\
     Permutation X_target [[F64.zero]; [F64.nan]] /\
     Permutation y_target [[F64.zero]; [F64.nan]]) /\
    ((- Z.of_nat (length [[F64.zero]; [F64.nan]]) < -1 < 0)%Z ->
     Z.of_nat (length X_context) = (Z.of_nat (length [[F64.zero]; [F64.nan]]) + -1)%Z /\
     Z.of_nat (length X_target) = (- -1)%Z).
Proof.
  apply (split_clipping (B := scripted []) (-1) [[F64.zero]; [F64.nan]]
           [[F64.zero]; [F64.nan]] [1; 0]).
  - reflexivity.
  - apply perm_swap.
Defined.
